(** * kenno-api: password reset, change and login handlers over a HubDB table

    A shallow embedding of the handlers of the repository:

    - [src/server.js]                    Express test server (no store)
    - [src/api/index.ts]                 Express server backed by HubDB
    - [src/api/auth/reset-password.js]   serverless reset, no old password
    - [src/unnamed/part_000]             serverless login with migration
    - [src/unnamed/part_001]             serverless reset with old password

    JavaScript strings are sequences of UTF-16 code units; a handler is a
    program over the two remote calls it makes ([axios.get], [axios.patch]),
    run against a model of the remote table. *)

From Stdlib Require Import ZArith QArith List Bool String Ascii Lia.
Import ListNotations.
Local Open Scope Z_scope.

(* ================================================================== *)
(** ** JavaScript strings *)

(** A string is the list of its UTF-16 code units, each in [0, 65535];
    [charCodeAt i] is the i-th element and [length] the number of units. *)
Definition jsstring := list Z.

Definition jsstring_eq_dec : forall a b : jsstring, {a = b} + {a <> b} :=
  list_eq_dec Z.eq_dec.

(** Strict equality [===] of two strings. *)
Definition streq (a b : jsstring) : bool :=
  if jsstring_eq_dec a b then true else false.

(** String literals of the source, as code units. *)
Definition js (s : string) : jsstring :=
  map (fun c => Z.of_N (N_of_ascii c)) (list_ascii_of_string s).

Definition length_js (s : jsstring) : Z := Z.of_nat (List.length s).

(** A property a request body may or may not carry: [None] is [undefined].
    The handlers below are embedded over bodies whose properties are strings
    or absent; [ServerJson] further down embeds [src/server.js] over bodies
    of arbitrary JSON values. *)
Definition field := option jsstring.

(** [!x] for a body field: [undefined] and the empty string are falsy. *)
Definition falsy (x : field) : bool :=
  match x with
  | None => true
  | Some [] => true
  | Some (_ :: _) => false
  end.

(** The value of a field the handler has found truthy. *)
Definition str (x : field) : jsstring :=
  match x with Some s => s | None => [] end.

(* ================================================================== *)
(** ** hashPassword *)

(** [ToInt32]: reduction modulo 2^32 into [-2^31, 2^31). *)
Definition to_int32 (z : Z) : Z := (z + 2 ^ 31) mod 2 ^ 32 - 2 ^ 31.

(** One turn of the loop body:
<<
    hash = (hash << 5) - hash + char;
    hash = hash & hash; // Convert to 32-bit integer
>>
    [<<] and [&] convert their operands with [ToInt32]; [-] and [+] are exact
    on the magnitudes that occur. *)
Definition hash_step (hash char : Z) : Z :=
  let hash1 := to_int32 (Z.shiftl (to_int32 hash) 5) - hash + char in
  Z.land (to_int32 hash1) (to_int32 hash1).

(** [let hash = 0; for (i = 0; i < password.length; i++) ...] *)
Definition hash_loop (password : jsstring) : Z :=
  fold_left hash_step password 0.

(** [Number.prototype.toString(radix)] on an integer: digits [0-9a-z],
    most significant first, a leading [-] for a negative number. *)
Definition digit_char (d : Z) : Z :=
  if d <? 10 then 48 + d else 97 + (d - 10).

Fixpoint digits (radix : Z) (fuel : nat) (n : Z) : list Z :=
  match fuel with
  | O => []
  | S fuel' =>
      if n <? radix then [digit_char n]
      else digits radix fuel' (n / radix) ++ [digit_char (n mod radix)]
  end.

Definition minus_sign : Z := 45.

(** The fuel covers every magnitude below 2^64 in any radix from 2 up. *)
Definition toString (radix : Z) (n : Z) : jsstring :=
  if n <? 0 then minus_sign :: digits radix 64 (- n)
  else digits radix 64 n.

(** Reading a rendering back: the value of a digit string. *)
Definition digit_value (c : Z) : Z :=
  if c <? 97 then c - 48 else c - 87.

Definition value (radix : Z) (ds : list Z) : Z :=
  fold_left (fun acc c => acc * radix + digit_value c) ds 0.

(** [server.js:13], [api/index.ts:45], [part_000:20], [part_001:20]:
    [return Math.abs(hash).toString(16);] *)
Definition hashPassword (password : jsstring) : jsstring :=
  toString 16 (Z.abs (hash_loop password)).

(** [api/auth/reset-password.js:20]: [return hash.toString();] *)
Definition hashPassword_reset (password : jsstring) : jsstring :=
  toString 10 (hash_loop password).

(* ================================================================== *)
(** ** Requests, responses and rows *)

(** [req.body]: the properties the handlers destructure. *)
Record Body := mkBody {
  body_email : field;
  body_password : field;
  body_oldPassword : field;
  body_currentPassword : field;
  body_newPassword : field
}.

Record Request := mkRequest { method : string; body : Body }.

Inductive Json :=
| JError (error : string)
| JMessage (message : string)
| JUpdated (message : string) (userId : jsstring)
| JLogin (message : string) (uid uemail uname : jsstring)
| JEnd.

Record Response := mkResponse { status : Z; json : Json }.

(** A row of the HubDB table, with the columns the README prescribes. *)
Record Row := mkRow {
  row_id : jsstring;
  values_email : jsstring;
  values_password : jsstring;
  values_name : jsstring
}.

(** The object [getUserByEmail] returns. *)
Record User := mkUser {
  id : jsstring;
  email : jsstring;
  password : jsstring;
  name : jsstring
}.

(* ================================================================== *)
(** ** Programs over the remote calls *)

(** A handler awaits [axios.get] and [axios.patch]; a rejected promise and a
    [throw] unwind to the nearest [catch].  [ok] is the code after the
    [await], [err] the code the rejection unwinds to. *)
Inductive Prog (A : Type) : Type :=
| Ret (a : A)
| Raise
| Get (isdraft : bool) (params : option jsstring)
      (ok : list Row -> Prog A) (err : Prog A)
| Patch (isdraft : bool) (rowId newPassword : jsstring)
        (ok : Prog A) (err : Prog A).

Arguments Ret {A} a.
Arguments Raise {A}.
Arguments Get {A} isdraft params ok err.
Arguments Patch {A} isdraft rowId newPassword ok err.

Fixpoint bind {A B : Type} (p : Prog A) (f : A -> Prog B) : Prog B :=
  match p with
  | Ret a => f a
  | Raise => Raise
  | Get d q ok err => Get d q (fun rows => bind (ok rows) f) (bind err f)
  | Patch d i v ok err => Patch d i v (bind ok f) (bind err f)
  end.

(** [try { p } catch (error) { handler }] *)
Fixpoint try_catch {A : Type} (p : Prog A) (handler : Prog A) : Prog A :=
  match p with
  | Ret a => Ret a
  | Raise => handler
  | Get d q ok err =>
      Get d q (fun rows => try_catch (ok rows) handler) (try_catch err handler)
  | Patch d i v ok err =>
      Patch d i v (try_catch ok handler) (try_catch err handler)
  end.

Notation "x <- c1 ;; c2" := (bind c1 (fun x => c2))
  (at level 61, c1 at next level, right associativity).

(** [await axios.get(`.../rows[/draft]`, { params: { email } })], resolved
    to [response.data.results]. *)
Definition axios_get (isdraft : bool) (params : option jsstring)
  : Prog (list Row) :=
  Get isdraft params Ret Raise.

(** [await axios.patch(`.../rows/${id}[/draft]`, { values: { password } })] *)
Definition axios_patch (isdraft : bool) (rowId newPassword : jsstring)
  : Prog unit :=
  Patch isdraft rowId newPassword (Ret tt) Raise.

(* ================================================================== *)
(** ** The remote table *)

(** HubDB keeps a draft and a published version of the table. *)
Record HubDB := mkHubDB { draft : list Row; published : list Row }.

Inductive Call :=
| AxiosGet (isdraft : bool) (params : option jsstring)
| AxiosPatch (isdraft : bool) (rowId newPassword : jsstring).

(** The world a request runs in: the table, the calls that are going to fail
    ([true] at position k: the k-th call from now is rejected; none once the
    list is used up), and the calls made so far with whether each resolved. *)
Record World := mkWorld {
  db : HubDB;
  faults : list bool;
  calls : list (Call * bool)
}.

Definition version (isdraft : bool) (t : HubDB) : list Row :=
  if isdraft then draft t else published t.

(** The rows a GET resolves to: all of them, or those whose email column
    equals the [email] query parameter. *)
Definition query (params : option jsstring) (rows : list Row) : list Row :=
  match params with
  | None => rows
  | Some e => filter (fun row => streq (values_email row) e) rows
  end.

Definition set_password (v : jsstring) (row : Row) : Row :=
  mkRow (row_id row) (values_email row) v (values_name row).

Definition patch_rows (rowId v : jsstring) (rows : list Row) : list Row :=
  map (fun row => if streq (row_id row) rowId then set_password v row else row)
      rows.

Definition has_row (rowId : jsstring) (rows : list Row) : bool :=
  existsb (fun row => streq (row_id row) rowId) rows.

Definition patch_db (isdraft : bool) (rowId v : jsstring) (t : HubDB) : HubDB :=
  if isdraft then mkHubDB (patch_rows rowId v (draft t)) (published t)
  else mkHubDB (draft t) (patch_rows rowId v (published t)).

Definition next_fault (w : World) : bool := hd false (faults w).

Definition record (c : Call) (resolved : bool) (t : HubDB) (w : World) : World :=
  mkWorld t (tl (faults w)) (calls w ++ [(c, resolved)]).

(** Running a program: a call is rejected when the world says so, and a
    PATCH also when the table has no row of that id (HTTP 404); a rejected
    call leaves the table as it was.  [None] is an uncaught exception. *)
Fixpoint run {A : Type} (p : Prog A) (w : World) : option A * World :=
  match p with
  | Ret a => (Some a, w)
  | Raise => (None, w)
  | Get d q ok err =>
      if next_fault w
      then run err (record (AxiosGet d q) false (db w) w)
      else run (ok (query q (version d (db w))))
               (record (AxiosGet d q) true (db w) w)
  | Patch d i v ok err =>
      if next_fault w || negb (has_row i (version d (db w)))
      then run err (record (AxiosPatch d i v) false (db w) w)
      else run ok (record (AxiosPatch d i v) true (patch_db d i v (db w)) w)
  end.

(** The calls a run adds to the log. *)
Definition is_patch (c : Call * bool) : bool :=
  match fst c with AxiosPatch _ _ _ => true | AxiosGet _ _ => false end.

Definition no_write (log : list (Call * bool)) : Prop :=
  forallb (fun c => negb (is_patch c)) log = true.

(** A program that makes no PATCH leaves the table alone and adds only GETs
    to the log. *)
Fixpoint read_only {A : Type} (p : Prog A) : Prop :=
  match p with
  | Ret _ => True
  | Raise => True
  | Get _ _ ok err => (forall rows, read_only (ok rows)) /\ read_only err
  | Patch _ _ _ _ _ => False
  end.

(** The stored credential a lookup by email sees in a version of the table:
    the password of the first row with that email. *)
Definition stored (e : jsstring) (rows : list Row) : option jsstring :=
  match query (Some e) rows with
  | row :: _ => Some (values_password row)
  | [] => None
  end.

(** [x === "literal"] for a body field. *)
Definition field_is (x : field) (s : jsstring) : bool :=
  match x with Some v => streq v s | None => false end.

Definition respond (code : Z) (j : Json) : Prog Response :=
  Ret (mkResponse code j).

(* ================================================================== *)
(** ** src/server.js: the Express test server *)

Module Server.

(** [app.post('/api/auth/reset-password', ...)], lines 29-59. *)
Definition reset_password (b : Body) : Prog Response :=
  try_catch
    (let email := body_email b in
     let oldPassword := body_oldPassword b in
     let newPassword := body_newPassword b in
     if falsy email || falsy oldPassword || falsy newPassword then
       respond 400 (JError "Email, old password, and new password are required")
     else if length_js (str newPassword) <? 8 then
       respond 400 (JError "Password must be at least 8 characters long")
     else if field_is email (js "test@example.com")
             && field_is oldPassword (js "oldpassword123") then
       let hashedNewPassword := hashPassword (str newPassword) in
       respond 200 (JMessage "Password reset successfully")
     else
       respond 400 (JError "Invalid email or old password"))
    (respond 500 (JError "Internal server error")).

(** [app.post('/api/auth/change-password', ...)], lines 62-91. *)
Definition change_password (b : Body) : Prog Response :=
  try_catch
    (let email := body_email b in
     let currentPassword := body_currentPassword b in
     let newPassword := body_newPassword b in
     if falsy email || falsy currentPassword || falsy newPassword then
       respond 400
         (JError "Email, current password, and new password are required")
     else if length_js (str newPassword) <? 8 then
       respond 400 (JError "Password must be at least 8 characters long")
     else if field_is email (js "test@example.com")
             && field_is currentPassword (js "oldpassword123") then
       let hashedNewPassword := hashPassword (str newPassword) in
       respond 200 (JMessage "Password changed successfully")
     else
       respond 400 (JError "Invalid email or current password"))
    (respond 500 (JError "Internal server error")).

End Server.

(* ================================================================== *)
(** ** src/api/index.ts: the Express server over HubDB *)

Module Api.

(** The [rowEmail] of lines 81-86: the email cell when it is truthy; the
    other columns the chain of [||] tries are not in the table. *)
Definition rowEmail (row : Row) : field :=
  match values_email row with
  | [] => None
  | e => Some e
  end.

(** [getUserByEmail], lines 64-104: fetch every published row, take the first
    whose [rowEmail] is the email; the [catch] logs and rethrows.  The
    [|| ""] defaults are the identity on string cells. *)
Definition getUserByEmail (email : jsstring) : Prog (option User) :=
  try_catch
    (rows <- axios_get false None ;;
     match find (fun row => field_is (rowEmail row) email) rows with
     | None => Ret None
     | Some userRow =>
         Ret (Some (mkUser (row_id userRow) (values_email userRow)
                           (values_password userRow) (values_name userRow)))
     end)
    Raise.

(** [updateUser], lines 106-132: PATCH the published row; the [catch] logs
    and rethrows.  A resolved PATCH answers 200. *)
Definition updateUser (userId newPassword : jsstring) : Prog bool :=
  try_catch
    (_ <- axios_patch false userId newPassword ;;
     Ret true)
    Raise.

(** Lines 164-181 of the reset handler, once the user is found. *)
Definition reset_found (user : User) (oldPassword newPassword : jsstring)
  : Prog Response :=
  let rest :=
    let hashedNewPassword := hashPassword newPassword in
    _ <- updateUser (id user) hashedNewPassword ;;
    respond 200 (JMessage "Password reset successfully") in
  let hashedOldPassword := hashPassword oldPassword in
  if negb (streq (password user) hashedOldPassword) then
    if negb (streq (password user) oldPassword) then
      respond 400 (JError "Invalid old password")
    else rest
  else rest.

(** [app.post("/api/auth/reset-password", ...)], lines 142-186. *)
Definition reset_password (b : Body) : Prog Response :=
  try_catch
    (let email := body_email b in
     let oldPassword := body_oldPassword b in
     let newPassword := body_newPassword b in
     if falsy email || falsy oldPassword || falsy newPassword then
       respond 400 (JError "Email, old password, and new password are required")
     else if length_js (str newPassword) <? 8 then
       respond 400 (JError "Password must be at least 8 characters long")
     else
       user <- getUserByEmail (str email) ;;
       match user with
       | None => respond 400 (JError "User not found")
       | Some user => reset_found user (str oldPassword) (str newPassword)
       end)
    (respond 500 (JError "Internal server error")).

(** Lines 211-228 of the change handler, once the user is found. *)
Definition change_found (user : User) (currentPassword newPassword : jsstring)
  : Prog Response :=
  let rest :=
    let hashedNewPassword := hashPassword newPassword in
    _ <- updateUser (id user) hashedNewPassword ;;
    respond 200 (JMessage "Password changed successfully") in
  let hashedCurrentPassword := hashPassword currentPassword in
  if negb (streq (password user) hashedCurrentPassword) then
    if negb (streq (password user) currentPassword) then
      respond 400 (JError "Invalid current password")
    else rest
  else rest.

(** [app.post("/api/auth/change-password", ...)], lines 189-233. *)
Definition change_password (b : Body) : Prog Response :=
  try_catch
    (let email := body_email b in
     let currentPassword := body_currentPassword b in
     let newPassword := body_newPassword b in
     if falsy email || falsy currentPassword || falsy newPassword then
       respond 400
         (JError "Email, current password, and new password are required")
     else if length_js (str newPassword) <? 8 then
       respond 400 (JError "Password must be at least 8 characters long")
     else
       user <- getUserByEmail (str email) ;;
       match user with
       | None => respond 400 (JError "User not found")
       | Some user =>
           change_found user (str currentPassword) (str newPassword)
       end)
    (respond 500 (JError "Internal server error")).

End Api.

(* ================================================================== *)
(** ** The serverless functions *)

(** Each serverless file exports, when [HUBSPOT_TABLE] or
    [HUBSPOT_ACCESS_TOKEN] is not set, a handler that answers 500 to every
    request (lines 8-17 of each). *)
Definition not_configured : Prog Response :=
  respond 500
    (JError "Server configuration error: HubSpot credentials not configured").

Definition user_of_row (row : Row) : User :=
  mkUser (row_id row) (values_email row) (values_password row)
         (values_name row).

(** ** src/unnamed/part_000: login *)

Module Login.

(** [getUserByEmail], lines 31-86: the draft rows first, then the published
    ones; the [catch] logs and returns [null]. *)
Definition getUserByEmail (email : jsstring) : Prog (option User) :=
  try_catch
    (draftResults <- axios_get true (Some email) ;;
     match draftResults with
     | row :: _ => Ret (Some (user_of_row row))
     | [] =>
         publishedResults <- axios_get false (Some email) ;;
         match publishedResults with
         | row :: _ => Ret (Some (user_of_row row))
         | [] => Ret None
         end
     end)
    (Ret None).

(** Lines 123-166, once the user is found; [password'] is the [password]
    of the request body. *)
Definition login_found (user : User) (password' : jsstring) : Prog Response :=
  let rest :=
    respond 200 (JLogin "Login successful" (id user) (email user) (name user)) in
  let hashedPassword := hashPassword password' in
  if negb (streq (password user) hashedPassword) then
    if negb (streq (password user) password') then
      respond 401 (JError "Invalid email or password")
    else
      _ <- try_catch
             (_ <- axios_patch true (id user) hashedPassword ;; Ret tt)
             (Ret tt) ;;
      rest
  else rest.

(** [module.exports], lines 88-173. *)
Definition handler (configured : bool) (req : Request) : Prog Response :=
  if negb configured then not_configured
  else if String.eqb (method req) "OPTIONS" then respond 200 JEnd
  else if negb (String.eqb (method req) "POST") then
    respond 405 (JError "Method not allowed")
  else
    try_catch
      (let email := body_email (body req) in
       let password := body_password (body req) in
       if falsy email || falsy password then
         respond 400 (JError "Email and password are required")
       else
         user <- getUserByEmail (str email) ;;
         match user with
         | None => respond 401 (JError "Invalid email or password")
         | Some user => login_found user (str password)
         end)
      (respond 500 (JError "Internal server error")).

End Login.

(** ** src/unnamed/part_001: reset with the old password *)

Module Reset.

(** [getUserByEmail], lines 31-86, as in the login function. *)
Definition getUserByEmail (email : jsstring) : Prog (option User) :=
  try_catch
    (draftResults <- axios_get true (Some email) ;;
     match draftResults with
     | row :: _ => Ret (Some (user_of_row row))
     | [] =>
         publishedResults <- axios_get false (Some email) ;;
         match publishedResults with
         | row :: _ => Ret (Some (user_of_row row))
         | [] => Ret None
         end
     end)
    (Ret None).

(** [updateUser], lines 88-110: PATCH the draft row; [true] when the call
    resolves, [false] from the [catch]. *)
Definition updateUser (userId newPassword : jsstring) : Prog bool :=
  try_catch
    (_ <- axios_patch true userId newPassword ;;
     Ret true)
    (Ret false).

(** Lines 147-185, once the user is found. *)
Definition reset_found (user : User) (oldPassword newPassword : jsstring)
  : Prog Response :=
  let rest :=
    let hashedPassword := hashPassword newPassword in
    success <- updateUser (id user) hashedPassword ;;
    if negb success then respond 500 (JError "Failed to update password")
    else respond 200 (JUpdated "Password updated successfully" (id user)) in
  let hashedOldPassword := hashPassword oldPassword in
  if negb (streq (password user) hashedOldPassword) then
    if negb (streq (password user) oldPassword) then
      respond 400 (JError "Invalid current password")
    else rest
  else rest.

(** [module.exports], lines 112-192. *)
Definition handler (configured : bool) (req : Request) : Prog Response :=
  if negb configured then not_configured
  else if String.eqb (method req) "OPTIONS" then respond 200 JEnd
  else if negb (String.eqb (method req) "POST") then
    respond 405 (JError "Method not allowed")
  else
    try_catch
      (let email := body_email (body req) in
       let oldPassword := body_oldPassword (body req) in
       let newPassword := body_newPassword (body req) in
       if falsy email || falsy oldPassword || falsy newPassword then
         respond 400
           (JError "Email, current Password, and new Password are required")
       else
         user <- getUserByEmail (str email) ;;
         match user with
         | None => respond 404 (JError "User not found")
         | Some user => reset_found user (str oldPassword) (str newPassword)
         end)
      (respond 500 (JError "Internal server error")).

End Reset.

(** ** src/api/auth/reset-password.js: reset without the old password *)

Module ResetPassword.

(** [hashPassword], lines 20-29: the decimal rendering of the signed hash. *)
Definition hashPassword : jsstring -> jsstring := hashPassword_reset.

(** [getUserByEmail], lines 31-60: the published rows only; the [catch]
    logs and returns [null]. *)
Definition getUserByEmail (email : jsstring) : Prog (option User) :=
  try_catch
    (results <- axios_get false (Some email) ;;
     match results with
     | row :: _ => Ret (Some (user_of_row row))
     | [] => Ret None
     end)
    (Ret None).

(** [updateUser], lines 62-79: PATCH the published row. *)
Definition updateUser (userId newPassword : jsstring) : Prog bool :=
  try_catch
    (_ <- axios_patch false userId newPassword ;;
     Ret true)
    (Ret false).

(** [module.exports], lines 81-138. *)
Definition handler (configured : bool) (req : Request) : Prog Response :=
  if negb configured then not_configured
  else if String.eqb (method req) "OPTIONS" then respond 200 JEnd
  else if negb (String.eqb (method req) "POST") then
    respond 405 (JError "Method not allowed")
  else
    try_catch
      (let email := body_email (body req) in
       let newPassword := body_newPassword (body req) in
       if falsy email || falsy newPassword then
         respond 400 (JError "Email and newPassword are required")
       else
         user <- getUserByEmail (str email) ;;
         match user with
         | None => respond 404 (JError "User not found")
         | Some user =>
             let hashedPassword := hashPassword (str newPassword) in
             success <- updateUser (id user) hashedPassword ;;
             if negb success then
               respond 500 (JError "Failed to update password")
             else
               respond 200
                 (JUpdated "Password updated successfully" (id user))
         end)
      (respond 500 (JError "Internal server error")).

End ResetPassword.

(* ================================================================== *)
(** ** The verifier of the specification *)

Inductive VerificationOutcome :=
| Rejected
| AcceptedHashed
| AcceptedPlaintextNeedsUpgrade.

(** The algorithm as the specification words it (section 4.2), to be
    compared with the comparisons the handlers inline:
    1. compute [d = digest(presented)];
    2. if [storedValue == d], [AcceptedHashed];
    3. else if [storedValue == presented], [AcceptedPlaintextNeedsUpgrade];
    4. else [Rejected]. *)
Definition verify_spec (storedValue presented : jsstring)
  : VerificationOutcome :=
  let d := hashPassword presented in
  if streq storedValue d then AcceptedHashed
  else if streq storedValue presented then AcceptedPlaintextNeedsUpgrade
  else Rejected.

(* ================================================================== *)
(** ** Scenarios *)

(** The test account of the repository ([src/server.js], [src/test-server.js])
    as a row of the table, stored in plaintext and stored as its digest. *)
Definition test_email : jsstring := js "test@example.com".
Definition old_password : jsstring := js "oldpassword123".
Definition new_password : jsstring := js "newpassword123".

Definition row_plain : Row :=
  mkRow (js "1") test_email old_password (js "Test").

Definition row_hashed : Row :=
  mkRow (js "1") test_email (hashPassword old_password) (js "Test").

(** A table with the one row in both versions, and the calls that will be
    rejected; the log starts empty. *)
Definition world_of (row : Row) (rejected : list bool) : World :=
  mkWorld (mkHubDB [row] [row]) rejected [].

Definition reset_body (e oldPassword newPassword : jsstring) : Body :=
  mkBody (Some e) None (Some oldPassword) None (Some newPassword).

Definition change_body (e currentPassword newPassword : jsstring) : Body :=
  mkBody (Some e) None None (Some currentPassword) (Some newPassword).

Definition login_body (e password' : jsstring) : Body :=
  mkBody (Some e) (Some password') None None None.

Definition post (b : Body) : Request := mkRequest "POST" b.

(* ================================================================== *)
(** ** The hash without the wrap-around *)

(** The polynomial the loop of [hashPassword] accumulates, in base 31 and
    over the integers: for the code units [c1 ... cn] it is
    [c1 * 31^(n-1) + ... + cn]. *)
Definition poly31 (password : jsstring) : Z :=
  fold_left (fun h c => 31 * h + c) password 0.


(** The characters [0-9] and [a-f]. *)
Definition is_hex_digit (c : Z) : Prop :=
  48 <= c <= 57 \/ 97 <= c <= 102.

(* ================================================================== *)
(** ** Shapes of programs *)

(** Every way through the program ends in a returned value that satisfies
    [P]: no exception escapes, whatever the store answers. *)
Fixpoint returns {A : Type} (P : A -> Prop) (p : Prog A) : Prop :=
  match p with
  | Ret a => P a
  | Raise => False
  | Get _ _ ok err => (forall rows, returns P (ok rows)) /\ returns P err
  | Patch _ _ _ ok err => returns P ok /\ returns P err
  end.

(** The program makes no call. *)
Definition quiet {A : Type} (p : Prog A) : Prop :=
  match p with
  | Ret _ => True
  | Raise => True
  | Get _ _ _ _ => False
  | Patch _ _ _ _ _ => False
  end.

(** The program makes at most [gets] GETs, then at most one PATCH, after
    which it makes no further call; every call it makes satisfies [P]. *)
Fixpoint budget {A : Type} (gets : nat) (P : Call -> Prop) (p : Prog A)
         {struct p} : Prop :=
  match p with
  | Ret _ => True
  | Raise => True
  | Get d q ok err =>
      match gets with
      | O => False
      | S m =>
          P (AxiosGet d q) /\ (forall rows, budget m P (ok rows)) /\
          budget m P err
      end
  | Patch d i v ok err => P (AxiosPatch d i v) /\ quiet ok /\ quiet err
  end.


(* ================================================================== *)
(** ** src/client-reset-password.js: the client class *)

Module Client.

(** The [message] property of a parsed body as the client uses it, in
    [new Error(data.message || fallback)]: absent or falsy ([null],
    [false], 0, the empty string), or truthy, with the text [new Error]
    makes of it (a string is its own text). *)
Inductive Message :=
| NoMessage
| MessageText (text : jsstring).

Definition message_of_string (s : jsstring) : Message :=
  match s with
  | [] => NoMessage
  | _ :: _ => MessageText s
  end.

(** The parsed body of a response when it is not [null]: of it the client
    reads the [message] property, and the servers of this repository set
    the [error] property. *)
Record Data := mkData { data_message : Message; data_error : field }.

(** What [await response.json()] gives: a rejection, [null], or a value
    with its properties. *)
Inductive Parsed :=
| NotJson (errorMessage : jsstring)
| JsonNull
| JsonData (d : Data).

(** What [await fetch(...)] gives: a rejection (no network, CORS), or a
    response with its [ok] flag and its body. *)
Inductive FetchOutcome :=
| NetworkError (errorMessage : jsstring)
| Answered (ok : bool) (parsed : Parsed).

(** A request: the URL and the object given to [JSON.stringify]; the method
    is always [POST]. *)
Definition Payload := list (string * jsstring).

(** The object a method of the client returns; its [data] property, when
    it has one, is the parsed body ([Some None] for [null]). *)
Record Result := mkResult {
  success : bool;
  data : option (option Data);
  error : option jsstring;
  message : string
}.

(** Programs of the client: a returned value, a thrown [Error] with its
    message, or a [fetch] and the code after it. *)
Inductive CProg (A : Type) : Type :=
| CRet (a : A)
| CThrow (errorMessage : jsstring)
| CFetch (url : jsstring) (payload : Payload) (k : FetchOutcome -> CProg A).

Arguments CRet {A} a.
Arguments CThrow {A} errorMessage.
Arguments CFetch {A} url payload k.

Fixpoint cbind {A B : Type} (p : CProg A) (f : A -> CProg B) : CProg B :=
  match p with
  | CRet a => f a
  | CThrow m => CThrow m
  | CFetch u b k => CFetch u b (fun o => cbind (k o) f)
  end.

(** [try { p } catch (error) { handler(error.message) }] *)
Fixpoint ctry_catch {A : Type} (p : CProg A) (handler : jsstring -> CProg A)
  : CProg A :=
  match p with
  | CRet a => CRet a
  | CThrow m => handler m
  | CFetch u b k => CFetch u b (fun o => ctry_catch (k o) handler)
  end.

(** [const response = await fetch(url, {method: "POST", ..., body});
     const data = await response.json();] *)
Definition fetch_json (url : jsstring) (payload : Payload)
  : CProg (bool * option Data) :=
  CFetch url payload
    (fun o =>
       match o with
       | NetworkError m => CThrow m
       | Answered _ (NotJson m) => CThrow m
       | Answered ok JsonNull => CRet (ok, None)
       | Answered ok (JsonData d) => CRet (ok, Some d)
       end).

(** [data.message || fallback] on a body that is not [null]. *)
Definition message_or (d : Data) (fallback : jsstring) : jsstring :=
  match data_message d with
  | NoMessage => fallback
  | MessageText text => text
  end.

(** The message of the [TypeError] that reading [data.message] throws when
    [data] is [null], in the wording of V8. *)
Definition null_message_error : jsstring :=
  js "Cannot read properties of null (reading 'message')".

(** [throw new Error(data.message || fallback)]: the evaluation of
    [data.message] throws first when [data] is [null]. *)
Definition throw_message {A : Type} (d : option Data) (fallback : jsstring)
  : CProg A :=
  match d with
  | None => CThrow null_message_error
  | Some d => CThrow (message_or d fallback)
  end.

(** [requestPasswordReset], lines 22-54. *)
Definition requestPasswordReset (baseURL email : jsstring) : CProg Result :=
  ctry_catch
    (cbind (fetch_json (baseURL ++ js "/api/auth/request-reset-password")
                       [("email"%string, email)])
       (fun response =>
          let (ok, d) := response in
          if negb ok then
            throw_message d (js "Failed to request password reset")
          else
            CRet (mkResult true (Some d) None
                           "Password reset email sent successfully")))
    (fun errorMessage =>
       CRet (mkResult false None (Some errorMessage)
                      "Failed to request password reset")).

(** [verifyResetToken], lines 61-93. *)
Definition verifyResetToken (baseURL token : jsstring) : CProg Result :=
  ctry_catch
    (cbind (fetch_json (baseURL ++ js "/api/auth/verify-reset-token")
                       [("token"%string, token)])
       (fun response =>
          let (ok, d) := response in
          if negb ok then throw_message d (js "Invalid reset token")
          else CRet (mkResult true (Some d) None "Token is valid")))
    (fun errorMessage =>
       CRet (mkResult false None (Some errorMessage)
                      "Failed to verify reset token")).

(** [confirmPasswordReset], lines 101-133. *)
Definition confirmPasswordReset (baseURL token newPassword : jsstring)
  : CProg Result :=
  ctry_catch
    (cbind (fetch_json (baseURL ++ js "/api/auth/confirm-reset-password")
                       [("token"%string, token);
                        ("newPassword"%string, newPassword)])
       (fun response =>
          let (ok, d) := response in
          if negb ok then throw_message d (js "Failed to reset password")
          else CRet (mkResult true (Some d) None
                              "Password reset successfully")))
    (fun errorMessage =>
       CRet (mkResult false None (Some errorMessage)
                      "Failed to reset password")).

(** [completePasswordReset], lines 142-161. *)
Definition completePasswordReset (baseURL email token newPassword : jsstring)
  : CProg Result :=
  ctry_catch
    (cbind (verifyResetToken baseURL token)
       (fun verifyResult =>
          if negb (success verifyResult) then CRet verifyResult
          else
            cbind (confirmPasswordReset baseURL token newPassword)
              (fun confirmResult => CRet confirmResult)))
    (fun errorMessage =>
       CRet (mkResult false None (Some errorMessage)
                      "Failed to complete password reset")).

(** The network a client runs against: the outcomes of the requests to
    come, in order (a request beyond the list is rejected as when offline),
    and the requests sent so far. *)
Record Net := mkNet {
  outcomes : list FetchOutcome;
  sent : list (jsstring * Payload)
}.

Definition offline : FetchOutcome := NetworkError (js "Failed to fetch").

(** Running a client program; [inr m] is an uncaught [Error] of message
    [m]. *)
Fixpoint crun {A : Type} (p : CProg A) (n : Net) : (A + jsstring) * Net :=
  match p with
  | CRet a => (inl a, n)
  | CThrow m => (inr m, n)
  | CFetch u b k =>
      crun (k (hd offline (outcomes n)))
           (mkNet (tl (outcomes n)) (sent n ++ [(u, b)]))
  end.

(** What the client receives when a handler of this repository has sent
    the response: [res.json(...)] gives an object with an [error] or a
    [message] property, [res.end()] an empty body that does not parse;
    [response.ok] is a status from 200 to 299. *)
Definition parsed_of_json (j : Json) : Parsed :=
  match j with
  | JError e => JsonData (mkData NoMessage (Some (js e)))
  | JMessage m => JsonData (mkData (message_of_string (js m)) None)
  | JUpdated m _ => JsonData (mkData (message_of_string (js m)) None)
  | JLogin m _ _ _ => JsonData (mkData (message_of_string (js m)) None)
  | JEnd => NotJson (js "Unexpected end of JSON input")
  end.

Definition ok_status (code : Z) : bool := (200 <=? code) && (code <=? 299).

Definition outcome_of_response (r : Response) : FetchOutcome :=
  Answered (ok_status (status r)) (parsed_of_json (json r)).

End Client.

(* ================================================================== *)
(** ** src/server.js over arbitrary JSON bodies *)

(** The values [express.json()] can put in a property of [req.body], and
    [undefined] for a property the body does not carry.  Of a number the
    handlers test only whether it is zero, and of an object only its
    [length] property, in comparisons with a number: [VObject length] is an
    object with the number its [length] property converts to there, [None]
    when it has no such property or the property converts to [NaN].  (An
    infinite number, which an overflowing literal reads as, behaves in the
    handlers as any number from 8 on.) *)
#[warnings="-register-all"]
Inductive jsval :=
| VUndefined
| VNull
| VBool (b : bool)
| VNumber (n : Q)
| VString (s : jsstring)
| VArray (items : list jsval)
| VObject (length : option Q).

(** [!x] *)
Definition js_falsy (x : jsval) : bool :=
  match x with
  | VUndefined => true
  | VNull => true
  | VBool b => negb b
  | VNumber n => Qeq_bool n (inject_Z 0)
  | VString [] => true
  | VString (_ :: _) => false
  | VArray _ => false
  | VObject _ => false
  end.

(** [x === "literal"]: only a string is strictly equal to a string. *)
Definition js_is (x : jsval) (s : jsstring) : bool :=
  match x with
  | VString v => streq v s
  | _ => false
  end.

(** The [length] of a value that has properties, as a number or
    [undefined] ([None]): the length of a string or of an array, the
    property of an object, nothing on a number or a boolean. *)
Definition length_value (x : jsval) : option Q :=
  match x with
  | VString s => Some (inject_Z (length_js s))
  | VArray items => Some (inject_Z (Z.of_nat (List.length items)))
  | VObject length => length
  | _ => None
  end.

(** [x.length]: a [TypeError] on [null] and [undefined]. *)
Definition get_length (x : jsval) : Prog (option Q) :=
  match x with
  | VUndefined => Raise
  | VNull => Raise
  | _ => Ret (length_value x)
  end.

(** [a < b] on numbers. *)
Definition Qlt_bool (a b : Q) : bool := negb (Qle_bool b a).

(** [a < k] for [a] a number or [undefined]: a comparison with [undefined]
    is false. *)
Definition js_lt (a : option Q) (k : Z) : bool :=
  match a with
  | Some n => Qlt_bool n (inject_Z k)
  | None => false
  end.

(** [a > k], that is [k < a]. *)
Definition js_gt (a : option Q) (k : Z) : bool :=
  match a with
  | Some n => Qlt_bool (inject_Z k) n
  | None => false
  end.

Definition body_of_field (x : field) : jsval :=
  match x with
  | None => VUndefined
  | Some s => VString s
  end.

Record JsonBody := mkJsonBody {
  json_email : jsval;
  json_password : jsval;
  json_oldPassword : jsval;
  json_currentPassword : jsval;
  json_newPassword : jsval
}.

(** A body of strings as a body of JSON values. *)
Definition json_body (b : Body) : JsonBody :=
  mkJsonBody (body_of_field (body_email b)) (body_of_field (body_password b))
             (body_of_field (body_oldPassword b))
             (body_of_field (body_currentPassword b))
             (body_of_field (body_newPassword b)).

Module ServerJson.

(** [hashPassword], lines 13-21, on any value.  On a string it is the hash
    of the string.  On any other value the loop condition
    [i < password.length] decides at [i = 0]: when the length is a number
    above 0 the body is entered and [password.charCodeAt], which no JSON
    value but a string has as a function, is called, a [TypeError]; when it
    is 0 or less, or [undefined], the loop does not run and the result is
    the rendering of 0. *)
Definition hashPassword (password : jsval) : Prog jsstring :=
  match password with
  | VString s => Ret (hashPassword s)
  | _ =>
      len <- get_length password ;;
      if js_gt len 0 then Raise
      else Ret (toString 16 (Z.abs 0))
  end.

(** [app.post('/api/auth/reset-password', ...)], lines 29-59. *)
Definition reset_password (b : JsonBody) : Prog Response :=
  try_catch
    (let email := json_email b in
     let oldPassword := json_oldPassword b in
     let newPassword := json_newPassword b in
     if js_falsy email || js_falsy oldPassword || js_falsy newPassword then
       respond 400 (JError "Email, old password, and new password are required")
     else
       len <- get_length newPassword ;;
       if js_lt len 8 then
         respond 400 (JError "Password must be at least 8 characters long")
       else if js_is email (js "test@example.com")
               && js_is oldPassword (js "oldpassword123") then
         hashedNewPassword <- hashPassword newPassword ;;
         respond 200 (JMessage "Password reset successfully")
       else
         respond 400 (JError "Invalid email or old password"))
    (respond 500 (JError "Internal server error")).

(** [app.post('/api/auth/change-password', ...)], lines 62-91. *)
Definition change_password (b : JsonBody) : Prog Response :=
  try_catch
    (let email := json_email b in
     let currentPassword := json_currentPassword b in
     let newPassword := json_newPassword b in
     if js_falsy email || js_falsy currentPassword || js_falsy newPassword then
       respond 400
         (JError "Email, current password, and new password are required")
     else
       len <- get_length newPassword ;;
       if js_lt len 8 then
         respond 400 (JError "Password must be at least 8 characters long")
       else if js_is email (js "test@example.com")
               && js_is currentPassword (js "oldpassword123") then
         hashedNewPassword <- hashPassword newPassword ;;
         respond 200 (JMessage "Password changed successfully")
       else
         respond 400 (JError "Invalid email or current password"))
    (respond 500 (JError "Internal server error")).

End ServerJson.


(* ================================================================== *)
(** * Properties *)

(** ** Strings *)

Lemma streq_true (a b : jsstring) : streq a b = true <-> a = b.
Proof. unfold streq. destruct (jsstring_eq_dec a b); split; congruence. Qed.

Lemma streq_false (a b : jsstring) : streq a b = false <-> a <> b.
Proof. unfold streq. destruct (jsstring_eq_dec a b); split; congruence. Qed.

Lemma streq_refl (a : jsstring) : streq a a = true.
Proof. now apply streq_true. Qed.

Lemma falsy_false (x : field) :
  falsy x = false -> exists s, x = Some s /\ s <> [].
Proof.
  destruct x as [[|c s]|]; simpl; try discriminate.
  intros _. exists (c :: s). split; [reflexivity | discriminate].
Qed.

(** ** The hash is a 32-bit signed integer *)

Lemma to_int32_range (z : Z) : - 2 ^ 31 <= to_int32 z < 2 ^ 31.
Proof.
  unfold to_int32.
  pose proof (Z.mod_pos_bound (z + 2 ^ 31) (2 ^ 32) ltac:(lia)). lia.
Qed.

Lemma to_int32_small (z : Z) : - 2 ^ 31 <= z < 2 ^ 31 -> to_int32 z = z.
Proof.
  intros H. unfold to_int32. rewrite Z.mod_small; lia.
Qed.

Lemma to_int32_wrap (z k : Z) : to_int32 (z + k * 2 ^ 32) = to_int32 z.
Proof.
  unfold to_int32.
  replace (z + k * 2 ^ 32 + 2 ^ 31) with (z + 2 ^ 31 + k * 2 ^ 32) by ring.
  now rewrite Z_mod_plus_full.
Qed.

Lemma to_int32_quot (z : Z) : exists q, to_int32 z = z + q * 2 ^ 32.
Proof.
  exists (- ((z + 2 ^ 31) / 2 ^ 32)). unfold to_int32.
  rewrite Z.mod_eq by lia. ring.
Qed.

(** The loop body is the polynomial step [31 * hash + char], wrapped. *)
Lemma hash_step_wrap (hash char : Z) :
  hash_step hash char = to_int32 (31 * hash + char).
Proof.
  unfold hash_step. cbv zeta. rewrite Z.land_diag, Z.shiftl_mul_pow2 by lia.
  destruct (to_int32_quot hash) as [q1 E1].
  destruct (to_int32_quot (to_int32 hash * 2 ^ 5)) as [q2 E2].
  rewrite E2, E1.
  replace ((hash + q1 * 2 ^ 32) * 2 ^ 5 + q2 * 2 ^ 32 - hash + char)
    with (31 * hash + char + (q1 * 2 ^ 5 + q2) * 2 ^ 32) by ring.
  apply to_int32_wrap.
Qed.

Lemma hash_step_range (hash char : Z) :
  - 2 ^ 31 <= hash_step hash char < 2 ^ 31.
Proof. rewrite hash_step_wrap. apply to_int32_range. Qed.

Lemma fold_hash_range (password : jsstring) (h : Z) :
  - 2 ^ 31 <= h < 2 ^ 31 ->
  - 2 ^ 31 <= fold_left hash_step password h < 2 ^ 31.
Proof.
  revert h. induction password as [|c s IH]; intros h Hh; simpl.
  - exact Hh.
  - apply IH, hash_step_range.
Qed.

Lemma hash_loop_range (password : jsstring) :
  - 2 ^ 31 <= hash_loop password < 2 ^ 31.
Proof. apply fold_hash_range. lia. Qed.

(** ** Rendering *)

Lemma digit_char_not_minus (d : Z) : 0 <= d -> digit_char d <> minus_sign.
Proof.
  intros H. unfold digit_char, minus_sign. destruct (d <? 10) eqn:E; lia.
Qed.

Lemma digits_no_minus (radix : Z) (fuel : nat) :
  0 < radix ->
  forall n, 0 <= n -> ~ In minus_sign (digits radix fuel n).
Proof.
  intros Hr. induction fuel as [|fuel IH]; intros n Hn; simpl.
  - tauto.
  - destruct (n <? radix) eqn:E.
    + simpl. intros [H | []]. now apply (digit_char_not_minus n).
    + rewrite in_app_iff. intros [H | [H | []]].
      * apply (IH (n / radix)); [apply Z.div_pos; lia | exact H].
      * apply (digit_char_not_minus (n mod radix)); [| exact H].
        apply Z.mod_pos_bound. lia.
Qed.

Lemma digit_value_char (d : Z) : 0 <= d < 36 -> digit_value (digit_char d) = d.
Proof.
  intros H. unfold digit_value, digit_char.
  destruct (d <? 10) eqn:E.
  - apply Z.ltb_lt in E. destruct (48 + d <? 97) eqn:F; [lia |].
    apply Z.ltb_ge in F. lia.
  - apply Z.ltb_ge in E. destruct (97 + (d - 10) <? 97) eqn:F; [| lia].
    apply Z.ltb_lt in F. lia.
Qed.

Lemma value_snoc (radix : Z) (ds : list Z) (c : Z) :
  value radix (ds ++ [c]) = value radix ds * radix + digit_value c.
Proof. unfold value. now rewrite fold_left_app. Qed.

(** With enough fuel the digits denote the number: nothing is cut off. *)
Lemma digits_value (radix : Z) (fuel : nat) :
  2 <= radix <= 36 ->
  forall n, 0 <= n < radix ^ Z.of_nat fuel ->
            value radix (digits radix fuel n) = n.
Proof.
  intros Hr. induction fuel as [|fuel IH]; intros n Hn.
  - change (Z.of_nat 0) with 0 in Hn. rewrite Z.pow_0_r in Hn.
    assert (n = 0) as -> by lia. reflexivity.
  - simpl digits. destruct (n <? radix) eqn:E.
    + apply Z.ltb_lt in E. unfold value. simpl.
      rewrite digit_value_char; lia.
    + apply Z.ltb_ge in E. rewrite value_snoc, IH.
      * rewrite digit_value_char.
        -- rewrite (Z.div_mod n radix) at 3 by lia. ring.
        -- pose proof (Z.mod_pos_bound n radix ltac:(lia)). lia.
      * split; [apply Z.div_pos; lia |].
        apply Z.div_lt_upper_bound; [lia |].
        rewrite Nat2Z.inj_succ, Z.pow_succ_r in Hn by lia. lia.
Qed.

(** The fuel of [toString] is enough below 2^64. *)
Lemma toString_value (radix n : Z) :
  2 <= radix <= 36 -> 0 <= n < 2 ^ 64 ->
  value radix (toString radix n) = n.
Proof.
  intros Hr Hn. unfold toString.
  destruct (n <? 0) eqn:E; [apply Z.ltb_lt in E; lia |].
  apply digits_value; [exact Hr |].
  change (Z.of_nat 64) with 64.
  assert (2 ^ 64 <= radix ^ 64) by (apply Z.pow_le_mono_l; lia). lia.
Qed.

Lemma toString_negative (radix n : Z) :
  n < 0 -> toString radix n = minus_sign :: toString radix (- n).
Proof.
  intros Hn. unfold toString.
  destruct (n <? 0) eqn:E; [| apply Z.ltb_ge in E; lia].
  destruct (- n <? 0) eqn:F; [apply Z.ltb_lt in F; lia | reflexivity].
Qed.

Lemma hashPassword_value (password : jsstring) :
  value 16 (hashPassword password) = Z.abs (hash_loop password).
Proof.
  pose proof (hash_loop_range password) as H.
  apply toString_value; [lia |].
  assert (2 ^ 31 < 2 ^ 64) by (apply Z.pow_lt_mono_r; lia). lia.
Qed.

(** The hexadecimal digest never carries a sign. *)
Lemma hashPassword_no_minus (password : jsstring) :
  ~ In minus_sign (hashPassword password).
Proof.
  unfold hashPassword, toString.
  destruct (Z.abs (hash_loop password) <? 0) eqn:E.
  - apply Z.ltb_lt in E. lia.
  - apply digits_no_minus; lia.
Qed.

Lemma digits_nonempty (radix : Z) (fuel : nat) (n : Z) :
  digits radix (S fuel) n <> [].
Proof.
  cbn [digits]. destruct (n <? radix); [discriminate |].
  intros H. apply app_eq_nil in H. destruct H as [_ H]. discriminate.
Qed.

Lemma hashPassword_nonempty (password : jsstring) : hashPassword password <> [].
Proof.
  unfold hashPassword, toString.
  destruct (Z.abs (hash_loop password) <? 0) eqn:E; [discriminate |].
  apply (digits_nonempty 16 63).
Qed.

(** C6 (code defect).  The digest of [src/api/auth/reset-password.js] is
    [hash.toString()], the signed decimal rendering: on a password whose hash
    is negative, such as the test password of the repository, the digest
    string starts with a minus sign, where the claim has every call site
    render the absolute value. *)
Theorem reset_password_js_digest_is_signed :
  hash_loop (js "oldpassword123") = - 478085840 /\
  ResetPassword.hashPassword (js "oldpassword123") = js "-478085840" /\
  In minus_sign (ResetPassword.hashPassword (js "oldpassword123")) /\
  hashPassword (js "oldpassword123") = js "1c7f02d0".
Proof.
  split; [vm_compute; reflexivity |].
  split; [vm_compute; reflexivity |].
  split; [vm_compute; left; reflexivity | vm_compute; reflexivity].
Qed.

(** ** Running programs *)

Lemma run_bind {A B : Type} (p : Prog A) (f : A -> Prog B) :
  forall w,
    run (bind p f) w =
    match run p w with
    | (Some a, w') => run (f a) w'
    | (None, w') => (None, w')
    end.
Proof.
  induction p as [a | | d q ok IHok err IHerr | d i v ok IHok err IHerr];
    intros w; simpl.
  - reflexivity.
  - reflexivity.
  - destruct (next_fault w); [apply IHerr | apply IHok].
  - destruct (next_fault w || negb (has_row i (version d (db w))));
      [apply IHerr | apply IHok].
Qed.

Lemma run_try_catch {A : Type} (p handler : Prog A) :
  forall w,
    run (try_catch p handler) w =
    match run p w with
    | (Some a, w') => (Some a, w')
    | (None, w') => run handler w'
    end.
Proof.
  induction p as [a | | d q ok IHok err IHerr | d i v ok IHok err IHerr];
    intros w; simpl.
  - reflexivity.
  - reflexivity.
  - destruct (next_fault w); [apply IHerr | apply IHok].
  - destruct (next_fault w || negb (has_row i (version d (db w))));
      [apply IHerr | apply IHok].
Qed.

(* ================================================================== *)
(** ** The order of the two comparisons *)

Lemma verify_spec_cases (s p : jsstring) :
  (s = hashPassword p /\ verify_spec s p = AcceptedHashed) \/
  (s <> hashPassword p /\ s = p /\
   verify_spec s p = AcceptedPlaintextNeedsUpgrade) \/
  (s <> hashPassword p /\ s <> p /\ verify_spec s p = Rejected).
Proof.
  unfold verify_spec. cbv zeta.
  destruct (streq s (hashPassword p)) eqn:E1.
  - left. apply streq_true in E1. auto.
  - apply streq_false in E1. destruct (streq s p) eqn:E2.
    + right. left. apply streq_true in E2. auto.
    + right. right. apply streq_false in E2. auto.
Qed.

(** The code of each verifying handler after the lookup, as a dispatch on
    the outcome of the verifier. *)
Lemma Login_found_dispatch (user : User) (presented : jsstring) :
  Login.login_found user presented =
    (let ok := respond 200 (JLogin "Login successful"
                              (id user) (email user) (name user)) in
     match verify_spec (password user) presented with
     | AcceptedHashed => ok
     | AcceptedPlaintextNeedsUpgrade =>
         Patch true (id user) (hashPassword presented) ok ok
     | Rejected => respond 401 (JError "Invalid email or password")
     end).
Proof.
  unfold Login.login_found, verify_spec. cbv zeta.
  destruct (streq (password user) (hashPassword presented));
    destruct (streq (password user) presented); reflexivity.
Qed.

Lemma Reset_found_dispatch (user : User) (presented newPassword : jsstring) :
  Reset.reset_found user presented newPassword =
    match verify_spec (password user) presented with
    | Rejected => respond 400 (JError "Invalid current password")
    | _ =>
        success <- Reset.updateUser (id user) (hashPassword newPassword) ;;
        if negb success then respond 500 (JError "Failed to update password")
        else respond 200 (JUpdated "Password updated successfully" (id user))
    end.
Proof.
  unfold Reset.reset_found, verify_spec. cbv zeta.
  destruct (streq (password user) (hashPassword presented));
    destruct (streq (password user) presented); reflexivity.
Qed.

Lemma Api_reset_found_dispatch
      (user : User) (presented newPassword : jsstring) :
  Api.reset_found user presented newPassword =
    match verify_spec (password user) presented with
    | Rejected => respond 400 (JError "Invalid old password")
    | _ =>
        _ <- Api.updateUser (id user) (hashPassword newPassword) ;;
        respond 200 (JMessage "Password reset successfully")
    end.
Proof.
  unfold Api.reset_found, verify_spec. cbv zeta.
  destruct (streq (password user) (hashPassword presented));
    destruct (streq (password user) presented); reflexivity.
Qed.

Lemma Api_change_found_dispatch
      (user : User) (presented newPassword : jsstring) :
  Api.change_found user presented newPassword =
    match verify_spec (password user) presented with
    | Rejected => respond 400 (JError "Invalid current password")
    | _ =>
        _ <- Api.updateUser (id user) (hashPassword newPassword) ;;
        respond 200 (JMessage "Password changed successfully")
    end.
Proof.
  unfold Api.change_found, verify_spec. cbv zeta.
  destruct (streq (password user) (hashPassword presented));
    destruct (streq (password user) presented); reflexivity.
Qed.

(** C1.  What every verifying handler does with the stored value [s] of the
    user it has found and the presented password [p] is decided by the
    verifier of the specification, which compares [s] with the digest of [p]
    first and with [p] itself second: the login answers 200 on
    [AcceptedHashed], writes the digest back and answers 200 on
    [AcceptedPlaintextNeedsUpgrade], answers 401 on [Rejected]; the reset
    and change handlers go on to write the new digest on either accepted
    outcome and answer 400 on [Rejected]. *)
Theorem handlers_verify_hashed_first
  (user : User) (presented newPassword : jsstring) :
  Login.login_found user presented =
    (let ok := respond 200 (JLogin "Login successful"
                              (id user) (email user) (name user)) in
     match verify_spec (password user) presented with
     | AcceptedHashed => ok
     | AcceptedPlaintextNeedsUpgrade =>
         Patch true (id user) (hashPassword presented) ok ok
     | Rejected => respond 401 (JError "Invalid email or password")
     end) /\
  Reset.reset_found user presented newPassword =
    match verify_spec (password user) presented with
    | Rejected => respond 400 (JError "Invalid current password")
    | _ =>
        success <- Reset.updateUser (id user) (hashPassword newPassword) ;;
        if negb success then respond 500 (JError "Failed to update password")
        else respond 200 (JUpdated "Password updated successfully" (id user))
    end /\
  Api.reset_found user presented newPassword =
    match verify_spec (password user) presented with
    | Rejected => respond 400 (JError "Invalid old password")
    | _ =>
        _ <- Api.updateUser (id user) (hashPassword newPassword) ;;
        respond 200 (JMessage "Password reset successfully")
    end /\
  Api.change_found user presented newPassword =
    match verify_spec (password user) presented with
    | Rejected => respond 400 (JError "Invalid current password")
    | _ =>
        _ <- Api.updateUser (id user) (hashPassword newPassword) ;;
        respond 200 (JMessage "Password changed successfully")
    end.
Proof.
  split; [apply Login_found_dispatch |].
  split; [apply Reset_found_dispatch |].
  split; [apply Api_reset_found_dispatch | apply Api_change_found_dispatch].
Qed.

(** When the stored value is both the digest of the presented password and
    the presented password itself, the hashed path wins. *)
Lemma verify_spec_ambiguous (p : jsstring) :
  hashPassword p = p -> verify_spec p p = AcceptedHashed.
Proof.
  intros H. unfold verify_spec. cbv zeta. now rewrite H, streq_refl.
Qed.

(** C8.  A password presented against its own digest is accepted on the
    hashed path: the verifier says [AcceptedHashed], the login answers 200
    with no write-back, and the reset and change handlers go straight to the
    write of the new digest. *)
Theorem own_digest_accepted_hashed
  (p newPassword i e n : jsstring) :
  let user := mkUser i e (hashPassword p) n in
  verify_spec (hashPassword p) p = AcceptedHashed /\
  Login.login_found user p = respond 200 (JLogin "Login successful" i e n) /\
  Api.reset_found user p newPassword =
    (_ <- Api.updateUser i (hashPassword newPassword) ;;
     respond 200 (JMessage "Password reset successfully")) /\
  Api.change_found user p newPassword =
    (_ <- Api.updateUser i (hashPassword newPassword) ;;
     respond 200 (JMessage "Password changed successfully")) /\
  Reset.reset_found user p newPassword =
    (success <- Reset.updateUser i (hashPassword newPassword) ;;
     if negb success then respond 500 (JError "Failed to update password")
     else respond 200 (JUpdated "Password updated successfully" i)).
Proof.
  intros user.
  unfold verify_spec, Login.login_found, Api.reset_found, Api.change_found,
    Reset.reset_found.
  cbv zeta. subst user. cbn [password id email name].
  rewrite streq_refl. cbn [negb]. repeat split; reflexivity.
Qed.

(* ================================================================== *)
(** ** src/server.js *)

(** On bodies whose properties are strings or absent, the handlers of
    [src/server.js] are programs without any remote call: each returns its
    response at once, in every world, and leaves the table and the call log
    as they were.  The response is a success exactly when the three fields
    are present, the new password has 8 code units or more, the email is
    [test@example.com] and the old (current) password is [oldpassword123]. *)
Lemma server_js_on_string_bodies (b : Body) (w : World) :
  (exists r,
      Server.reset_password b = Ret r /\
      run (Server.reset_password b) w = (Some r, w) /\
      (status r = 200 <->
       (falsy (body_email b) || falsy (body_oldPassword b)
        || falsy (body_newPassword b) = false /\
        8 <= length_js (str (body_newPassword b)) /\
        body_email b = Some (js "test@example.com") /\
        body_oldPassword b = Some (js "oldpassword123")))) /\
  (exists r,
      Server.change_password b = Ret r /\
      run (Server.change_password b) w = (Some r, w) /\
      (status r = 200 <->
       (falsy (body_email b) || falsy (body_currentPassword b)
        || falsy (body_newPassword b) = false /\
        8 <= length_js (str (body_newPassword b)) /\
        body_email b = Some (js "test@example.com") /\
        body_currentPassword b = Some (js "oldpassword123")))).
Proof.
  assert (Hf : forall (x : field) s, field_is x s = true <-> x = Some s).
  { intros [v|] s; simpl.
    - rewrite streq_true. split; congruence.
    - split; discriminate. }
  split.
  - unfold Server.reset_password. cbv zeta.
    destruct (falsy (body_email b) || falsy (body_oldPassword b)
              || falsy (body_newPassword b)) eqn:E1.
    { eexists. split; [reflexivity | split; [reflexivity | split]].
      - simpl. discriminate.
      - intros [H _]. discriminate. }
    destruct (length_js (str (body_newPassword b)) <? 8) eqn:E2.
    { eexists. split; [reflexivity | split; [reflexivity | split]].
      - simpl. discriminate.
      - intros (_ & H & _). apply Z.ltb_lt in E2. simpl. lia. }
    apply Z.ltb_ge in E2.
    destruct (field_is (body_email b) (js "test@example.com")
              && field_is (body_oldPassword b) (js "oldpassword123")) eqn:E3.
    + apply andb_true_iff in E3. destruct E3 as [H1 H2].
      apply Hf in H1. apply Hf in H2.
      eexists. split; [reflexivity | split; [reflexivity | split]].
      * intros _. repeat split; assumption.
      * intros _. reflexivity.
    + eexists. split; [reflexivity | split; [reflexivity | split]].
      * simpl. discriminate.
      * intros (_ & _ & H1 & H2). apply Hf in H1. apply Hf in H2.
        rewrite H1, H2 in E3. discriminate.
  - unfold Server.change_password. cbv zeta.
    destruct (falsy (body_email b) || falsy (body_currentPassword b)
              || falsy (body_newPassword b)) eqn:E1.
    { eexists. split; [reflexivity | split; [reflexivity | split]].
      - simpl. discriminate.
      - intros [H _]. discriminate. }
    destruct (length_js (str (body_newPassword b)) <? 8) eqn:E2.
    { eexists. split; [reflexivity | split; [reflexivity | split]].
      - simpl. discriminate.
      - intros (_ & H & _). apply Z.ltb_lt in E2. simpl. lia. }
    apply Z.ltb_ge in E2.
    destruct (field_is (body_email b) (js "test@example.com")
              && field_is (body_currentPassword b) (js "oldpassword123"))
      eqn:E3.
    + apply andb_true_iff in E3. destruct E3 as [H1 H2].
      apply Hf in H1. apply Hf in H2.
      eexists. split; [reflexivity | split; [reflexivity | split]].
      * intros _. repeat split; assumption.
      * intros _. reflexivity.
    + eexists. split; [reflexivity | split; [reflexivity | split]].
      * simpl. discriminate.
      * intros (_ & _ & H1 & H2). apply Hf in H1. apply Hf in H2.
        rewrite H1, H2 in E3. discriminate.
Qed.

(* ================================================================== *)
(** ** Lookups do not write *)

Lemma no_write_app (l1 l2 : list (Call * bool)) :
  no_write l1 -> no_write l2 -> no_write (l1 ++ l2).
Proof.
  unfold no_write. intros H1 H2. rewrite forallb_app, H1, H2. reflexivity.
Qed.

Lemma read_only_run {A : Type} (p : Prog A) :
  read_only p ->
  forall w r w',
    run p w = (r, w') ->
    db w' = db w /\ exists l, calls w' = calls w ++ l /\ no_write l.
Proof.
  induction p as [a | | d q ok IHok err IHerr | d i v ok IHok err IHerr];
    simpl; intros RO w r w' Hrun.
  - inversion Hrun; subst. split; [reflexivity |].
    exists []. rewrite app_nil_r. split; reflexivity.
  - inversion Hrun; subst. split; [reflexivity |].
    exists []. rewrite app_nil_r. split; reflexivity.
  - destruct RO as [ROok ROerr].
    destruct (next_fault w).
    + destruct (IHerr ROerr _ _ _ Hrun) as (Hdb & l & Hl & Hw).
      simpl in Hdb, Hl. split; [exact Hdb |].
      exists ((AxiosGet d q, false) :: l). rewrite Hl, <- app_assoc.
      split; [reflexivity | exact Hw].
    + destruct (IHok _ (ROok _) _ _ _ Hrun) as (Hdb & l & Hl & Hw).
      simpl in Hdb, Hl. split; [exact Hdb |].
      exists ((AxiosGet d q, true) :: l). rewrite Hl, <- app_assoc.
      split; [reflexivity | exact Hw].
  - contradiction.
Qed.

Lemma Reset_getUserByEmail_read_only (e : jsstring) :
  read_only (Reset.getUserByEmail e).
Proof.
  unfold Reset.getUserByEmail, axios_get. simpl. split; [| exact I].
  intros [|row rows]; simpl; [| exact I].
  split; [| exact I]. intros [|row' rows']; exact I.
Qed.

Lemma Login_getUserByEmail_read_only (e : jsstring) :
  read_only (Login.getUserByEmail e).
Proof. exact (Reset_getUserByEmail_read_only e). Qed.

Lemma ResetPassword_getUserByEmail_read_only (e : jsstring) :
  read_only (ResetPassword.getUserByEmail e).
Proof.
  unfold ResetPassword.getUserByEmail, axios_get. simpl. split; [| exact I].
  intros [|row rows]; exact I.
Qed.

Lemma Api_getUserByEmail_read_only (e : jsstring) :
  read_only (Api.getUserByEmail e).
Proof.
  unfold Api.getUserByEmail, axios_get. simpl. split; [| exact I].
  intros rows. destruct (find _ rows); exact I.
Qed.

Lemma post_not_options : String.eqb "POST" "OPTIONS" = false.
Proof. reflexivity. Qed.

Lemma post_is_post : String.eqb "POST" "POST" = true.
Proof. reflexivity. Qed.

(** Entering a serverless handler with a POST request. *)
Ltac enter_post Hm :=
  rewrite Hm, post_not_options, post_is_post; cbn [negb].

(** C7.  When the lookup of the reset function ([src/unnamed/part_001])
    returns a user whose stored value is neither the digest of the presented
    old password nor the old password itself, the verifier says [Rejected],
    the response is 400, the table is as it was before the request and the
    request has made no PATCH. *)
Theorem wrong_old_password_rejected_without_write
  (w w1 : World) (req : Request) (e p np : jsstring) (user : User) :
  method req = "POST"%string ->
  body_email (body req) = Some e ->
  body_oldPassword (body req) = Some p ->
  body_newPassword (body req) = Some np ->
  e <> [] -> p <> [] -> np <> [] ->
  run (Reset.getUserByEmail e) w = (Some (Some user), w1) ->
  password user <> hashPassword p ->
  password user <> p ->
  verify_spec (password user) p = Rejected /\
  run (Reset.handler true req) w =
    (Some (mkResponse 400 (JError "Invalid current password")), w1) /\
  db w1 = db w /\
  exists l, calls w1 = calls w ++ l /\ no_write l.
Proof.
  intros Hm He Hp Hn Ne Np Nn Hlookup Hd Hplain.
  apply streq_false in Hd. apply streq_false in Hplain.
  split; [unfold verify_spec; cbv zeta; now rewrite Hd, Hplain |].
  split.
  - unfold Reset.handler. cbn [negb]. enter_post Hm.
    rewrite He, Hp, Hn. cbv zeta.
    destruct e as [|c1 e]; [contradiction |].
    destruct p as [|c2 p]; [contradiction |].
    destruct np as [|c3 np]; [contradiction |].
    cbn [falsy orb str].
    rewrite run_try_catch, run_bind, Hlookup.
    unfold Reset.reset_found. cbv zeta. rewrite Hd, Hplain. reflexivity.
  - exact (read_only_run _ (Reset_getUserByEmail_read_only e) _ _ _ Hlookup).
Qed.

Lemma wrong_old_password_witness :
  verify_spec (hashPassword old_password) (js "wrong") = Rejected /\
  run (Reset.handler true (post (reset_body test_email (js "wrong") new_password)))
      (world_of row_hashed []) =
    (Some (mkResponse 400 (JError "Invalid current password")),
     mkWorld (mkHubDB [row_hashed] [row_hashed]) []
             [(AxiosGet true (Some test_email), true)]) /\
  mkHubDB [row_hashed] [row_hashed] = mkHubDB [row_hashed] [row_hashed] /\
  exists l, [(AxiosGet true (Some test_email), true)] = [] ++ l /\ no_write l.
Proof.
  apply (wrong_old_password_rejected_without_write
           (world_of row_hashed [])
           (mkWorld (mkHubDB [row_hashed] [row_hashed]) []
                    [(AxiosGet true (Some test_email), true)])
           (post (reset_body test_email (js "wrong") new_password))
           test_email (js "wrong") new_password (user_of_row row_hashed)).
  - reflexivity.
  - reflexivity.
  - reflexivity.
  - reflexivity.
  - vm_compute. discriminate.
  - vm_compute. discriminate.
  - vm_compute. discriminate.
  - vm_compute. reflexivity.
  - vm_compute. discriminate.
  - vm_compute. discriminate.
Defined.

(* ================================================================== *)
(** ** Validation comes before the store *)

(** In [src/api/index.ts] a request with a missing field or a new password
    of fewer than 8 code units is answered 400 by a program that makes no
    remote call at all. *)
Lemma Api_validation_before_store (b : Body) :
  (falsy (body_email b) || falsy (body_oldPassword b)
   || falsy (body_newPassword b) = true \/
   length_js (str (body_newPassword b)) < 8 ->
   exists msg, Api.reset_password b = respond 400 (JError msg)) /\
  (falsy (body_email b) || falsy (body_currentPassword b)
   || falsy (body_newPassword b) = true \/
   length_js (str (body_newPassword b)) < 8 ->
   exists msg, Api.change_password b = respond 400 (JError msg)).
Proof.
  split; intros H.
  - unfold Api.reset_password. cbv zeta.
    destruct (falsy (body_email b) || falsy (body_oldPassword b)
              || falsy (body_newPassword b)) eqn:E1.
    + eexists. reflexivity.
    + destruct H as [H | H]; [discriminate |].
      apply Z.ltb_lt in H. rewrite H. eexists. reflexivity.
  - unfold Api.change_password. cbv zeta.
    destruct (falsy (body_email b) || falsy (body_currentPassword b)
              || falsy (body_newPassword b)) eqn:E1.
    + eexists. reflexivity.
    + destruct H as [H | H]; [discriminate |].
      apply Z.ltb_lt in H. rewrite H. eexists. reflexivity.
Qed.

(** The serverless reset ([src/unnamed/part_001]) answers 400 without a
    remote call when a field is missing. *)
Lemma Reset_missing_field_before_store (req : Request) :
  method req = "POST"%string ->
  falsy (body_email (body req)) || falsy (body_oldPassword (body req))
  || falsy (body_newPassword (body req)) = true ->
  Reset.handler true req =
    respond 400 (JError "Email, current Password, and new Password are required").
Proof.
  intros Hm H. unfold Reset.handler. cbn [negb]. enter_post Hm.
  cbv zeta. rewrite H. reflexivity.
Qed.

(** C4 (code defect).  The serverless reset ([src/unnamed/part_001]) checks
    that the three fields are present and nothing else: a request whose new
    password has 7 code units goes on to the store, which is read, and, the
    old password being right, written: the answer is 200 and the draft row
    holds the digest of the short password. *)
Theorem serverless_reset_accepts_short_password :
  length_js (js "short12") = 7 /\
  run (Reset.handler true
         (post (reset_body test_email old_password (js "short12"))))
      (world_of row_plain []) =
    (Some (mkResponse 200 (JUpdated "Password updated successfully" (js "1"))),
     mkWorld
       (mkHubDB [set_password (hashPassword (js "short12")) row_plain]
                [row_plain])
       []
       [(AxiosGet true (Some test_email), true);
        (AxiosPatch true (js "1") (hashPassword (js "short12")), true)]).
Proof.
  split; vm_compute; reflexivity.
Qed.

(* ================================================================== *)
(** ** No record for the email *)



(** C5 (code defect).  In [src/api/index.ts] the reset and the change
    handler answer a request whose email is on no row with status 400 and
    the error [User not found], where the claim, and the serverless
    functions, have 404.  No write is attempted: the one call is the GET. *)
Theorem api_unknown_email_answers_400 :
  run (Api.reset_password
         (reset_body (js "nobody@example.com") old_password new_password))
      (world_of row_plain []) =
    (Some (mkResponse 400 (JError "User not found")),
     mkWorld (mkHubDB [row_plain] [row_plain]) []
             [(AxiosGet false None, true)]) /\
  run (Api.change_password
         (change_body (js "nobody@example.com") old_password new_password))
      (world_of row_plain []) =
    (Some (mkResponse 400 (JError "User not found")),
     mkWorld (mkHubDB [row_plain] [row_plain]) []
             [(AxiosGet false None, true)]).
Proof.
  split; vm_compute; reflexivity.
Qed.

(** The lookup of [src/api/index.ts] by [find] sees the same row as a
    query by email. *)
Lemma find_rowEmail (e : jsstring) (rows : list Row) :
  e <> [] ->
  find (fun row => field_is (Api.rowEmail row) e) rows =
  hd_error (query (Some e) rows).
Proof.
  intros Ne. induction rows as [|row rows IH]; [reflexivity |].
  cbn [find query filter].
  assert (E : field_is (Api.rowEmail row) e = streq (values_email row) e).
  { unfold Api.rowEmail. destruct (values_email row) as [|c s]; [| reflexivity].
    cbn [field_is]. symmetry. apply streq_false. congruence. }
  rewrite E. destruct (streq (values_email row) e); [reflexivity | exact IH].
Qed.

Lemma Api_unknown_email_400 (w : World) (b : Body) (e p np : jsstring) :
  body_email b = Some e ->
  body_oldPassword b = Some p ->
  body_newPassword b = Some np ->
  e <> [] -> p <> [] -> 8 <= length_js np ->
  next_fault w = false ->
  query (Some e) (published (db w)) = [] ->
  run (Api.reset_password b) w =
    (Some (mkResponse 400 (JError "User not found")),
     record (AxiosGet false None) true (db w) w).
Proof.
  intros He Hp Hn Ne Np Hlen Hf Hq.
  unfold Api.reset_password. rewrite He, Hp, Hn. cbv zeta.
  destruct e as [|c1 e]; [contradiction |].
  destruct p as [|c2 p]; [contradiction |].
  destruct np as [|c3 np]; [cbn in Hlen; lia |].
  cbn [falsy orb str].
  apply Z.ltb_ge in Hlen. rewrite Hlen.
  unfold Api.getUserByEmail, axios_get. cbn [bind try_catch run].
  rewrite Hf. cbn [version query]. rewrite find_rowEmail by discriminate.
  rewrite Hq. reflexivity.
Qed.

(* ================================================================== *)
(** ** Failures of the store *)

(** In [src/api/index.ts] a rejected call, the lookup or the write, is
    answered 500. *)
Lemma Api_failure_is_500 (b : Body) (t : HubDB) (fs : list bool)
      (r : option Response) (w' : World) (c : Call) :
  run (Api.reset_password b) (mkWorld t fs []) = (r, w') ->
  In (c, false) (calls w') ->
  r = Some (mkResponse 500 (JError "Internal server error")).
Proof.
  unfold Api.reset_password. cbv zeta.
  destruct (falsy (body_email b) || falsy (body_oldPassword b)
            || falsy (body_newPassword b)).
  { intros H; inversion H; subst. intros []. }
  destruct (length_js (str (body_newPassword b)) <? 8).
  { intros H; inversion H; subst. intros []. }
  unfold Api.getUserByEmail, axios_get. cbn [bind try_catch run].
  destruct (next_fault _).
  { intros H; inversion H; subst. reflexivity. }
  cbn [version db record calls faults app].
  destruct (find _ _) as [userRow|].
  2:{ intros H; inversion H; subst. cbn. intros [H1 | []]. discriminate. }
  cbn [bind try_catch run].
  unfold Api.reset_found. cbv zeta. cbn [id password].
  unfold Api.updateUser, axios_patch.
  destruct (negb (streq (values_password userRow) _)).
  - destruct (negb (streq (values_password userRow) _)).
    { intros H; inversion H; subst. cbn. intros [H1 | []]. discriminate. }
    cbn [bind try_catch run]. destruct (_ || _).
    + intros H; inversion H; subst. reflexivity.
    + intros H; inversion H; subst. cbn.
      intros [H1 | [H1 | []]]; discriminate.
  - cbn [bind try_catch run]. destruct (_ || _).
    + intros H; inversion H; subst. reflexivity.
    + intros H; inversion H; subst. cbn.
      intros [H1 | [H1 | []]]; discriminate.
Qed.

(** In the serverless reset a rejected write is answered 500. *)
Lemma Reset_write_failure_500 (user : User) (p np : jsstring) (w : World) :
  verify_spec (password user) p <> Rejected ->
  next_fault w || negb (has_row (id user) (draft (db w))) = true ->
  run (Reset.reset_found user p np) w =
    (Some (mkResponse 500 (JError "Failed to update password")),
     record (AxiosPatch true (id user) (hashPassword np)) false (db w) w).
Proof.
  intros Hv Hfail.
  rewrite Reset_found_dispatch.
  unfold Reset.updateUser, axios_patch.
  destruct (verify_spec (password user) p); [contradiction | |];
    cbn [bind try_catch run version]; rewrite Hfail; reflexivity.
Qed.

(** The one failure that is swallowed: on a plaintext match the login tries
    to write the digest back; when that PATCH is rejected the login answers
    200 all the same and the table keeps the plaintext. *)
Lemma Login_migration_failure_swallowed (user : User) (p : jsstring) (w : World) :
  password user = p ->
  p <> hashPassword p ->
  next_fault w || negb (has_row (id user) (draft (db w))) = true ->
  run (Login.login_found user p) w =
    (Some (mkResponse 200
             (JLogin "Login successful" (id user) (email user) (name user))),
     record (AxiosPatch true (id user) (hashPassword p)) false (db w) w).
Proof.
  intros Hs Hne Hfail. unfold Login.login_found, axios_patch. cbv zeta.
  rewrite Hs. apply streq_false in Hne. rewrite Hne, streq_refl.
  cbn [negb bind try_catch run version]. rewrite Hfail. reflexivity.
Qed.

(** C2 (code defect).  In the serverless functions a rejected lookup is
    caught inside [getUserByEmail], which returns [null]: the reset of
    [src/unnamed/part_001] and the reset of [src/api/auth/reset-password.js]
    answer 404 [User not found], the login 401, where the claim has 500;
    [src/api/index.ts] answers the same failure with 500. *)
Theorem lookup_failure_reported_as_not_found :
  let rejected := world_of row_plain [true] in
  run (Reset.handler true
         (post (reset_body test_email old_password new_password))) rejected =
    (Some (mkResponse 404 (JError "User not found")),
     mkWorld (mkHubDB [row_plain] [row_plain]) []
             [(AxiosGet true (Some test_email), false)]) /\
  run (ResetPassword.handler true
         (post (reset_body test_email old_password new_password))) rejected =
    (Some (mkResponse 404 (JError "User not found")),
     mkWorld (mkHubDB [row_plain] [row_plain]) []
             [(AxiosGet false (Some test_email), false)]) /\
  run (Login.handler true (post (login_body test_email old_password)))
      rejected =
    (Some (mkResponse 401 (JError "Invalid email or password")),
     mkWorld (mkHubDB [row_plain] [row_plain]) []
             [(AxiosGet true (Some test_email), false)]) /\
  run (Api.reset_password (reset_body test_email old_password new_password))
      rejected =
    (Some (mkResponse 500 (JError "Internal server error")),
     mkWorld (mkHubDB [row_plain] [row_plain]) []
             [(AxiosGet false None, false)]).
Proof.
  cbv zeta.
  split; [vm_compute; reflexivity |].
  split; [vm_compute; reflexivity |].
  split; vm_compute; reflexivity.
Qed.

(* ================================================================== *)
(** ** What a write leaves in the table *)

Lemma patched_email (i v : jsstring) (row : Row) :
  values_email (if streq (row_id row) i then set_password v row else row) =
  values_email row.
Proof. destruct (streq (row_id row) i); reflexivity. Qed.

(** After a PATCH of the row a lookup by email finds, the lookup finds the
    new value. *)
Lemma stored_patch_rows (e i v : jsstring) (rows : list Row)
      (row : Row) (rest : list Row) :
  query (Some e) rows = row :: rest ->
  row_id row = i ->
  stored e (patch_rows i v rows) = Some v.
Proof.
  unfold stored. cbn [query]. intros Hq Hid. subst i.
  induction rows as [|a rows IH]; cbn [filter] in Hq; [discriminate |].
  cbn [patch_rows map filter]. rewrite patched_email.
  destruct (streq (values_email a) e).
  - inversion Hq; subst a rest. rewrite streq_refl. reflexivity.
  - exact (IH Hq).
Qed.

Lemma query_has_row (e : jsstring) (rows : list Row) (row : Row)
      (rest : list Row) :
  query (Some e) rows = row :: rest -> has_row (row_id row) rows = true.
Proof.
  intros Hq. unfold has_row. apply existsb_exists. exists row. split.
  - assert (H : In row (query (Some e) rows)) by (rewrite Hq; now left).
    cbn [query] in H. apply filter_In in H. tauto.
  - apply streq_refl.
Qed.

(** Digests are written in the digits [0-9a-f]. *)
Lemma digit_char_hex (d : Z) : 0 <= d < 16 -> digit_char d <= 102.
Proof. intros H. unfold digit_char. destruct (d <? 10) eqn:E; lia. Qed.

Lemma digits_hex (fuel : nat) :
  forall n c, 0 <= n -> In c (digits 16 fuel n) -> c <= 102.
Proof.
  induction fuel as [|fuel IH]; intros n c Hn; cbn [digits].
  - intros [].
  - destruct (n <? 16) eqn:E.
    + apply Z.ltb_lt in E. intros [<- | []]. apply digit_char_hex. lia.
    + rewrite in_app_iff. intros [H | [<- | []]].
      * apply (IH (n / 16)); [apply Z.div_pos; lia | exact H].
      * apply digit_char_hex. apply Z.mod_pos_bound. lia.
Qed.

Lemma hashPassword_hex (p : jsstring) (c : Z) :
  In c (hashPassword p) -> c <= 102.
Proof.
  unfold hashPassword, toString.
  destruct (Z.abs (hash_loop p) <? 0) eqn:E; [apply Z.ltb_lt in E; lia |].
  apply digits_hex. lia.
Qed.

(** The test password is the digest of no password at all. *)
Lemma old_password_is_no_digest (p : jsstring) : hashPassword p <> old_password.
Proof.
  intros H.
  assert (Ho : In 111 (hashPassword p)).
  { rewrite H. vm_compute. tauto. }
  apply hashPassword_hex in Ho. lia.
Qed.

(* ================================================================== *)
(** ** The stored value after a successful request *)

(** A run that ends in a response whose status is not 200. *)
Ltac not_success :=
  let H := fresh in
  intros H; inversion H; subst; simpl; discriminate.

(** A successful reset through [src/api/index.ts] leaves the digest of the
    new password in the row the lookup finds. *)
Lemma Api_reset_success_stores_digest
      (b : Body) (w w' : World) (r : Response) (e np : jsstring) :
  body_email b = Some e ->
  body_newPassword b = Some np ->
  run (Api.reset_password b) w = (Some r, w') ->
  status r = 200 ->
  stored e (published (db w')) = Some (hashPassword np).
Proof.
  intros He Hn. unfold Api.reset_password. rewrite He, Hn. cbv zeta.
  destruct e as [|c1 e].
  { cbn [falsy orb]. not_success. }
  cbn [falsy orb str].
  destruct (falsy (body_oldPassword b)); cbn [orb]; [not_success |].
  destruct np as [|c3 np]; [not_success |].
  destruct (length_js (c3 :: np) <? 8); [not_success |].
  unfold Api.getUserByEmail, axios_get. cbn [bind try_catch run].
  destruct (next_fault w); [not_success |].
  cbn [version query]. rewrite find_rowEmail by discriminate.
  destruct (query _ (published (db w))) as [|row rest] eqn:Hq;
    cbn [hd_error bind try_catch run respond]; [not_success |].
  rewrite run_try_catch.
  rewrite Api_reset_found_dispatch. cbn [id password].
  destruct (verify_spec (values_password row) (str (body_oldPassword b)));
    [cbn [run respond]; not_success | |];
    unfold Api.updateUser, axios_patch; cbn [bind try_catch run respond];
    (destruct (_ || _); [not_success |]);
    intros H; inversion H; subst; intros _;
    cbn [record db patch_db published version];
    exact (stored_patch_rows _ _ _ _ _ _ Hq eq_refl).
Qed.

(** The same for the change handler. *)
Lemma Api_change_success_stores_digest
      (b : Body) (w w' : World) (r : Response) (e np : jsstring) :
  body_email b = Some e ->
  body_newPassword b = Some np ->
  run (Api.change_password b) w = (Some r, w') ->
  status r = 200 ->
  stored e (published (db w')) = Some (hashPassword np).
Proof.
  intros He Hn. unfold Api.change_password. rewrite He, Hn. cbv zeta.
  destruct e as [|c1 e].
  { cbn [falsy orb]. not_success. }
  cbn [falsy orb str].
  destruct (falsy (body_currentPassword b)); cbn [orb]; [not_success |].
  destruct np as [|c3 np]; [not_success |].
  destruct (length_js (c3 :: np) <? 8); [not_success |].
  unfold Api.getUserByEmail, axios_get. cbn [bind try_catch run].
  destruct (next_fault w); [not_success |].
  cbn [version query]. rewrite find_rowEmail by discriminate.
  destruct (query _ (published (db w))) as [|row rest] eqn:Hq;
    cbn [hd_error bind try_catch run respond]; [not_success |].
  rewrite run_try_catch.
  rewrite Api_change_found_dispatch. cbn [id password].
  destruct (verify_spec (values_password row) (str (body_currentPassword b)));
    [cbn [run respond]; not_success | |];
    unfold Api.updateUser, axios_patch; cbn [bind try_catch run respond];
    (destruct (_ || _); [not_success |]);
    intros H; inversion H; subst; intros _;
    cbn [record db patch_db published version];
    exact (stored_patch_rows _ _ _ _ _ _ Hq eq_refl).
Qed.

(** A successful login on a record of the draft table leaves the digest of
    the presented password there, unless the write-back was rejected: then
    the table is as before, the record still in plaintext. *)
Lemma Login_success_stores_digest_unless_rejected
      (req : Request) (w w' : World) (r : Response) (e p s : jsstring) :
  method req = "POST"%string ->
  body_email (body req) = Some e ->
  body_password (body req) = Some p ->
  stored e (draft (db w)) = Some s ->
  run (Login.handler true req) w = (Some r, w') ->
  status r = 200 ->
  stored e (draft (db w')) = Some (hashPassword p) \/
  (s = p /\ db w' = db w /\
   exists i,
     calls w' =
     calls w ++ [(AxiosGet true (Some e), true);
                 (AxiosPatch true i (hashPassword p), false)]).
Proof.
  intros Hm He Hp Hs. unfold Login.handler. cbn [negb]. enter_post Hm.
  rewrite He, Hp. cbv zeta.
  destruct e as [|c1 e]; [cbn [falsy orb]; not_success |].
  destruct p as [|c2 p]; [cbn [falsy orb]; not_success |].
  cbn [falsy orb str].
  unfold Login.getUserByEmail, axios_get. cbn [bind try_catch run].
  destruct (next_fault w); [cbn [run respond]; not_success |].
  cbn [version]. unfold stored in Hs.
  destruct (query _ (draft (db w))) as [|row rest] eqn:Hq; [discriminate |].
  inversion Hs as [Hs']. clear Hs.
  cbn [bind try_catch run]. rewrite run_try_catch.
  rewrite Login_found_dispatch. cbv zeta. cbn [user_of_row id email password name].
  destruct (verify_spec_cases (values_password row) (c2 :: p))
    as [[H1 H2] | [(H1 & H2 & H3) | (H1 & H2 & H3)]].
  - rewrite H2. cbn [run respond]. intros H; inversion H; subst. intros _.
    left. cbn [record db]. unfold stored. rewrite Hq. now rewrite H1.
  - rewrite H3. cbn [run respond]. unfold record at 2 3. cbn [db version].
    destruct (_ || _).
    + intros H; inversion H; subst. intros _. right.
      split; [exact H2 |]. split; [reflexivity |].
      exists (row_id row). cbn [record calls]. now rewrite <- app_assoc.
    + intros H; inversion H; subst. intros _. left.
      cbn [record db patch_db draft].
      exact (stored_patch_rows _ _ _ _ _ _ Hq eq_refl).
  - rewrite H3. cbn [run respond]. not_success.
Qed.

(** A successful reset through [src/unnamed/part_001] on a record of the
    draft table leaves the digest of the new password there. *)
Lemma Reset_success_stores_digest
      (req : Request) (w w' : World) (r : Response) (e np s : jsstring) :
  method req = "POST"%string ->
  body_email (body req) = Some e ->
  body_newPassword (body req) = Some np ->
  stored e (draft (db w)) = Some s ->
  run (Reset.handler true req) w = (Some r, w') ->
  status r = 200 ->
  stored e (draft (db w')) = Some (hashPassword np).
Proof.
  intros Hm He Hn Hs. unfold Reset.handler. cbn [negb]. enter_post Hm.
  rewrite He, Hn. cbv zeta.
  destruct e as [|c1 e]; [cbn [falsy orb]; not_success |].
  cbn [falsy orb str].
  destruct (falsy (body_oldPassword (body req))); cbn [orb]; [not_success |].
  destruct np as [|c3 np]; [not_success |].
  unfold Reset.getUserByEmail, axios_get. cbn [bind try_catch run].
  destruct (next_fault w); [cbn [run respond]; not_success |].
  cbn [version]. unfold stored in Hs.
  destruct (query _ (draft (db w))) as [|row rest] eqn:Hq; [discriminate |].
  cbn [bind try_catch run]. rewrite run_try_catch.
  rewrite Reset_found_dispatch. cbn [user_of_row id password].
  destruct (verify_spec (values_password row)
                        (str (body_oldPassword (body req))));
    [cbn [run respond]; not_success | |];
    unfold Reset.updateUser, axios_patch; cbn [bind try_catch run respond];
    (destruct (_ || _); [cbn [negb run]; not_success |]);
    cbn [negb run]; intros H; inversion H; subst; intros _;
    cbn [record db patch_db draft version];
    exact (stored_patch_rows _ _ _ _ _ _ Hq eq_refl).
Qed.

(** Why the serverless functions are stated on records of the draft table.
    Their lookup falls back on the published rows, and their write always
    goes to the draft row of the id found.  When the test account is in the
    published table only, and the draft row of its id carries another
    email, a login and a reset both succeed, the published record keeps its
    plaintext, and the password written lands on the other account. *)
Lemma published_only_record_is_not_updated :
  let other :=
    mkRow (js "1") (js "other@example.com") (js "secret") (js "Other") in
  let w := mkWorld (mkHubDB [other] [row_plain]) [] [] in
  (exists w',
      run (Login.handler true (post (login_body test_email old_password))) w =
        (Some (mkResponse 200
                 (JLogin "Login successful" (js "1") test_email (js "Test"))),
         w') /\
      stored test_email (published (db w')) = Some old_password /\
      stored test_email (draft (db w')) = None /\
      draft (db w') = [set_password (hashPassword old_password) other]) /\
  (exists w',
      run (Reset.handler true
             (post (reset_body test_email old_password new_password))) w =
        (Some (mkResponse 200
                 (JUpdated "Password updated successfully" (js "1"))),
         w') /\
      stored test_email (published (db w')) = Some old_password /\
      stored test_email (draft (db w')) = None /\
      draft (db w') = [set_password (hashPassword new_password) other]).
Proof.
  cbv zeta. split.
  - eexists. split; [vm_compute; reflexivity |].
    split; [vm_compute; reflexivity |].
    split; vm_compute; reflexivity.
  - eexists. split; [vm_compute; reflexivity |].
    split; [vm_compute; reflexivity |].
    split; vm_compute; reflexivity.
Qed.

(** C3 (counterexample).  The test account stored in plaintext logs in with
    its password while the write-back PATCH is rejected: the login answers
    200, a successful verification, and the stored value is still the
    plaintext, which is the digest of no password. *)
Lemma login_success_leaves_plaintext :
  run (Login.handler true (post (login_body test_email old_password)))
      (world_of row_plain [false; true]) =
    (Some (mkResponse 200
             (JLogin "Login successful" (js "1") test_email (js "Test"))),
     mkWorld (mkHubDB [row_plain] [row_plain]) []
             [(AxiosGet true (Some test_email), true);
              (AxiosPatch true (js "1") (hashPassword old_password), false)]) /\
  stored test_email [row_plain] = Some old_password /\
  forall p, hashPassword p <> old_password.
Proof.
  split; [vm_compute; reflexivity |].
  split; [vm_compute; reflexivity |].
  exact old_password_is_no_digest.
Qed.

(** C3 (amended).  After a successful reset or change through
    [src/api/index.ts] the stored value of the record, the published row the
    lookup finds, is the digest of the new password; after a successful
    reset through [src/unnamed/part_001] of a record of the draft table, the
    version it reads first and writes, likewise.  After a successful login
    on a record of the draft table the stored value is the digest of the
    presented password, unless the write-back of that digest was attempted
    and rejected: then the login has succeeded all the same and the table is
    unchanged, the record still in plaintext. *)
Theorem successful_verification_stores_digest
  (req : Request) (w w' : World) (r : Response) (e np : jsstring) :
  body_email (body req) = Some e ->
  (body_newPassword (body req) = Some np ->
   run (Api.reset_password (body req)) w = (Some r, w') ->
   status r = 200 ->
   stored e (published (db w')) = Some (hashPassword np)) /\
  (body_newPassword (body req) = Some np ->
   run (Api.change_password (body req)) w = (Some r, w') ->
   status r = 200 ->
   stored e (published (db w')) = Some (hashPassword np)) /\
  (forall s,
      method req = "POST"%string ->
      body_newPassword (body req) = Some np ->
      stored e (draft (db w)) = Some s ->
      run (Reset.handler true req) w = (Some r, w') ->
      status r = 200 ->
      stored e (draft (db w')) = Some (hashPassword np)) /\
  (forall p s,
      method req = "POST"%string ->
      body_password (body req) = Some p ->
      stored e (draft (db w)) = Some s ->
      run (Login.handler true req) w = (Some r, w') ->
      status r = 200 ->
      stored e (draft (db w')) = Some (hashPassword p) \/
      (s = p /\ db w' = db w /\
       stored e (draft (db w')) = Some p /\
       exists i,
         calls w' =
         calls w ++ [(AxiosGet true (Some e), true);
                     (AxiosPatch true i (hashPassword p), false)])).
Proof.
  intros He. split; [| split; [| split]].
  - intros Hn. now apply Api_reset_success_stores_digest.
  - intros Hn. now apply Api_change_success_stores_digest.
  - intros s Hm Hn Hs Hrun Hst.
    exact (Reset_success_stores_digest req w w' r e np s Hm He Hn Hs Hrun Hst).
  - intros p s Hm Hp Hs Hrun Hst.
    destruct (Login_success_stores_digest_unless_rejected
                req w w' r e p s Hm He Hp Hs Hrun Hst)
      as [H | (H1 & H2 & H3)].
    + now left.
    + right. split; [exact H1 |]. split; [exact H2 |].
      split; [rewrite H2, Hs, H1; reflexivity | exact H3].
Qed.

Lemma successful_verification_witness :
  stored test_email
         [set_password (hashPassword new_password) row_plain] =
    Some (hashPassword new_password) /\
  stored test_email
         (draft (mkHubDB [set_password (hashPassword new_password) row_plain]
                         [row_plain])) =
    Some (hashPassword new_password) /\
  (stored test_email [row_plain] = Some (hashPassword old_password) \/
   (old_password = old_password /\
    mkHubDB [row_plain] [row_plain] = mkHubDB [row_plain] [row_plain] /\
    stored test_email [row_plain] = Some old_password /\
    exists i,
      [(AxiosGet true (Some test_email), true);
       (AxiosPatch true (js "1") (hashPassword old_password), false)] =
      [] ++ [(AxiosGet true (Some test_email), true);
             (AxiosPatch true i (hashPassword old_password), false)])).
Proof.
  pose (b := mkBody (Some test_email) (Some old_password) (Some old_password)
                    (Some old_password) (Some new_password)).
  split; [| split].
  - apply (proj1 (successful_verification_stores_digest
                    (post b) (world_of row_plain [])
                    (mkWorld
                       (mkHubDB [row_plain]
                          [set_password (hashPassword new_password) row_plain])
                       []
                       [(AxiosGet false None, true);
                        (AxiosPatch false (js "1") (hashPassword new_password),
                         true)])
                    (mkResponse 200 (JMessage "Password reset successfully"))
                    test_email new_password eq_refl)).
    + reflexivity.
    + vm_compute. reflexivity.
    + reflexivity.
  - apply (proj1 (proj2 (proj2 (successful_verification_stores_digest
                    (post b) (world_of row_plain [])
                    (mkWorld
                       (mkHubDB
                          [set_password (hashPassword new_password) row_plain]
                          [row_plain])
                       []
                       [(AxiosGet true (Some test_email), true);
                        (AxiosPatch true (js "1") (hashPassword new_password),
                         true)])
                    (mkResponse 200
                       (JUpdated "Password updated successfully" (js "1")))
                    test_email new_password eq_refl)))
             old_password).
    + reflexivity.
    + reflexivity.
    + vm_compute. reflexivity.
    + vm_compute. reflexivity.
    + reflexivity.
  - apply (proj2 (proj2 (proj2 (successful_verification_stores_digest
                    (post b) (world_of row_plain [false; true])
                    (mkWorld (mkHubDB [row_plain] [row_plain]) []
                       [(AxiosGet true (Some test_email), true);
                        (AxiosPatch true (js "1") (hashPassword old_password),
                         false)])
                    (mkResponse 200
                       (JLogin "Login successful" (js "1") test_email
                               (js "Test")))
                    test_email new_password eq_refl)))
             old_password old_password).
    + reflexivity.
    + reflexivity.
    + vm_compute. reflexivity.
    + vm_compute. reflexivity.
    + reflexivity.
Defined.

(* ================================================================== *)
(** ** src/api/auth/reset-password.js *)



(* ================================================================== *)
(** ** The serverless reset and the Express reset, end to end *)

(** A wrong old password on [src/api/index.ts]: 400 after the one GET. *)
Lemma Api_wrong_old_password_400
      (w : World) (b : Body) (e p np : jsstring) (row : Row) (rest : list Row) :
  body_email b = Some e ->
  body_oldPassword b = Some p ->
  body_newPassword b = Some np ->
  e <> [] -> p <> [] -> 8 <= length_js np ->
  next_fault w = false ->
  query (Some e) (published (db w)) = row :: rest ->
  values_password row <> hashPassword p ->
  values_password row <> p ->
  run (Api.reset_password b) w =
    (Some (mkResponse 400 (JError "Invalid old password")),
     record (AxiosGet false None) true (db w) w).
Proof.
  intros He Hp Hn Ne Np Hlen Hf Hq Hd Hplain.
  apply streq_false in Hd. apply streq_false in Hplain.
  unfold Api.reset_password. rewrite He, Hp, Hn. cbv zeta.
  destruct e as [|c1 e]; [contradiction |].
  destruct p as [|c2 p]; [contradiction |].
  destruct np as [|c3 np]; [cbn in Hlen; lia |].
  cbn [falsy orb str].
  apply Z.ltb_ge in Hlen. rewrite Hlen.
  unfold Api.getUserByEmail, axios_get. cbn [bind try_catch run].
  rewrite Hf. cbn [version query]. rewrite find_rowEmail by discriminate.
  rewrite Hq. cbn [hd_error bind try_catch run].
  unfold Api.reset_found. cbv zeta. cbn [password].
  rewrite Hd, Hplain. reflexivity.
Qed.

(** A plaintext match is an upgrade only when the password is not its own
    digest. *)
Lemma verify_spec_plaintext (p : jsstring) :
  hashPassword p <> p -> verify_spec p p = AcceptedPlaintextNeedsUpgrade.
Proof.
  intros H. unfold verify_spec. cbv zeta.
  assert (E : streq p (hashPassword p) = false) by (apply streq_false; congruence).
  now rewrite E, streq_refl.
Qed.

(* ================================================================== *)
(** * Further properties of the code *)

(** ** hashPassword *)

Lemma to_int32_mul_add (k x c : Z) :
  to_int32 (k * to_int32 x + c) = to_int32 (k * x + c).
Proof.
  destruct (to_int32_quot x) as [q E]. rewrite E.
  replace (k * (x + q * 2 ^ 32) + c) with (k * x + c + (k * q) * 2 ^ 32) by ring.
  apply to_int32_wrap.
Qed.

Lemma fold_left_cons {A B : Type} (f : A -> B -> A) (x : B) (l : list B)
      (a : A) :
  fold_left f (x :: l) a = fold_left f l (f a x).
Proof. reflexivity. Qed.

Lemma fold_hash_poly (password : jsstring) :
  forall h,
    fold_left hash_step password (to_int32 h) =
    to_int32 (fold_left (fun a c => 31 * a + c) password h).
Proof.
  induction password as [|c s IH]; intros h.
  - reflexivity.
  - rewrite !fold_left_cons, hash_step_wrap, to_int32_mul_add. apply IH.
Qed.

(** X1.  [hashPassword] accumulates the base-31 polynomial of the code
    units, reduced to a signed 32-bit integer: the hash of a string is the
    wrapped polynomial, and appending one code unit [c] takes the hash [h]
    to the wrapped [31 * h + c]. *)
Theorem hash_is_wrapped_polynomial (password : jsstring) (c : Z) :
  hash_loop password = to_int32 (poly31 password) /\
  hash_loop (password ++ [c]) = to_int32 (31 * hash_loop password + c).
Proof.
  assert (E0 : to_int32 0 = 0) by (apply to_int32_small; lia).
  split.
  - unfold hash_loop, poly31. rewrite <- fold_hash_poly, E0. reflexivity.
  - unfold hash_loop. rewrite fold_left_app, fold_left_cons.
    apply hash_step_wrap.
Qed.

Lemma digits_length (radix : Z) (fuel : nat) :
  2 <= radix ->
  forall (k : nat) (n : Z),
    0 <= n < radix ^ Z.of_nat (S k) ->
    (List.length (digits radix fuel n) <= S k)%nat.
Proof.
  intros Hr. induction fuel as [|fuel IH]; intros k n Hn; cbn [digits].
  - cbn. lia.
  - destruct (n <? radix) eqn:E; [cbn; lia |].
    apply Z.ltb_ge in E. rewrite length_app. cbn [List.length].
    destruct k as [|k].
    + change (Z.of_nat 1) with 1 in Hn. rewrite Z.pow_1_r in Hn. lia.
    + assert (Hq : 0 <= n / radix < radix ^ Z.of_nat (S k)).
      { split; [apply Z.div_pos; lia |].
        apply Z.div_lt_upper_bound; [lia |].
        rewrite (Nat2Z.inj_succ (S k)), Z.pow_succ_r in Hn by lia. lia. }
      specialize (IH k (n / radix) Hq). lia.
Qed.

Lemma digit_char_is_hex (d : Z) : 0 <= d < 16 -> is_hex_digit (digit_char d).
Proof.
  intros H. unfold is_hex_digit, digit_char. destruct (d <? 10) eqn:E.
  - apply Z.ltb_lt in E. lia.
  - apply Z.ltb_ge in E. lia.
Qed.

Lemma digits_are_hex (fuel : nat) :
  forall n, 0 <= n -> Forall is_hex_digit (digits 16 fuel n).
Proof.
  induction fuel as [|fuel IH]; intros n Hn; cbn [digits].
  - constructor.
  - destruct (n <? 16) eqn:E.
    + apply Z.ltb_lt in E.
      constructor; [apply digit_char_is_hex; lia | constructor].
    + apply Forall_app. split.
      * apply IH. apply Z.div_pos; lia.
      * constructor; [| constructor]. apply digit_char_is_hex.
        apply Z.mod_pos_bound. lia.
Qed.

(** X2.  A hexadecimal digest is between one and eight characters long,
    each a digit [0-9] or a letter [a-f], and read back in base 16 it is the
    absolute value of the hash. *)
Theorem hashPassword_shape (password : jsstring) :
  (1 <= List.length (hashPassword password) <= 8)%nat /\
  Forall is_hex_digit (hashPassword password) /\
  value 16 (hashPassword password) = Z.abs (hash_loop password).
Proof.
  pose proof (hash_loop_range password) as Hr.
  split; [| split].
  - split.
    + pose proof (hashPassword_nonempty password) as Hne.
      destruct (hashPassword password); [contradiction | cbn; lia].
    + unfold hashPassword, toString.
      destruct (Z.abs (hash_loop password) <? 0) eqn:E;
        [apply Z.ltb_lt in E; lia |].
      apply (digits_length 16 64 ltac:(lia) 7).
      change (16 ^ Z.of_nat 8) with (2 ^ 32). lia.
  - unfold hashPassword, toString.
    destruct (Z.abs (hash_loop password) <? 0) eqn:E;
      [apply Z.ltb_lt in E; lia |].
    apply digits_are_hex. lia.
  - apply hashPassword_value.
Qed.

Lemma toString_nonneg_head (radix n : Z) :
  0 < radix -> 0 <= n -> ~ In minus_sign (toString radix n).
Proof.
  intros Hr Hn. unfold toString.
  destruct (n <? 0) eqn:E; [apply Z.ltb_lt in E; lia |].
  now apply digits_no_minus.
Qed.

(** Below 2^64 in magnitude the rendering determines the number. *)
Lemma toString_inj (radix a b : Z) :
  2 <= radix <= 36 ->
  - 2 ^ 64 < a < 2 ^ 64 -> - 2 ^ 64 < b < 2 ^ 64 ->
  toString radix a = toString radix b -> a = b.
Proof.
  intros Hr Ha Hb E.
  destruct (Z.neg_nonneg_cases a) as [Na | Pa];
    destruct (Z.neg_nonneg_cases b) as [Nb | Pb].
  - rewrite (toString_negative radix a Na), (toString_negative radix b Nb) in E.
    inversion E as [E'].
    apply (f_equal (value radix)) in E'.
    rewrite !toString_value in E' by lia. lia.
  - exfalso. apply (toString_nonneg_head radix b); [lia | exact Pb |].
    rewrite <- E, (toString_negative radix a Na). now left.
  - exfalso. apply (toString_nonneg_head radix a); [lia | exact Pa |].
    rewrite E, (toString_negative radix b Nb). now left.
  - apply (f_equal (value radix)) in E.
    rewrite !toString_value in E by lia. exact E.
Qed.

(** X3.  What a digest tells about the hash.  Two passwords have the same
    decimal digest ([src/api/auth/reset-password.js]) exactly when they have
    the same hash; they have the same hexadecimal digest (the other files)
    exactly when their hashes agree up to sign. *)
Theorem digest_determines_hash (p q : jsstring) :
  (ResetPassword.hashPassword p = ResetPassword.hashPassword q <->
   hash_loop p = hash_loop q) /\
  (hashPassword p = hashPassword q <->
   Z.abs (hash_loop p) = Z.abs (hash_loop q)).
Proof.
  pose proof (hash_loop_range p) as Hp.
  pose proof (hash_loop_range q) as Hq.
  assert (H64 : 2 ^ 31 < 2 ^ 64) by (apply Z.pow_lt_mono_r; lia).
  split; split.
  - unfold ResetPassword.hashPassword, hashPassword_reset.
    apply toString_inj; lia.
  - unfold ResetPassword.hashPassword, hashPassword_reset. now intros ->.
  - intros E. rewrite <- (hashPassword_value p), <- (hashPassword_value q).
    now rewrite E.
  - unfold hashPassword. now intros ->.
Qed.

Lemma hash_step_shift (h a b : Z) :
  hash_step (hash_step h a) b = hash_step (hash_step h (a + 1)) (b - 31).
Proof.
  rewrite !hash_step_wrap, !to_int32_mul_add. f_equal. ring.
Qed.

(** X4.  The digest is not injective: anywhere in a password, replacing two
    adjacent code units [a], [b] by [a + 1], [b - 31] (as in [Aa] and [BB])
    keeps the hash, hence both digests, and the other password is accepted
    on the hashed path against the digest of the first. *)
Theorem hashPassword_collision (pre suf : jsstring) (a b : Z) :
  let p := pre ++ a :: b :: suf in
  let q := pre ++ (a + 1) :: (b - 31) :: suf in
  hash_loop p = hash_loop q /\
  hashPassword p = hashPassword q /\
  ResetPassword.hashPassword p = ResetPassword.hashPassword q /\
  verify_spec (hashPassword p) q = AcceptedHashed.
Proof.
  intros p q.
  assert (H : hash_loop p = hash_loop q).
  { unfold hash_loop, p, q.
    rewrite !fold_left_app, !fold_left_cons, hash_step_shift. reflexivity. }
  split; [exact H |].
  assert (Hd : hashPassword p = hashPassword q)
    by (unfold hashPassword; now rewrite H).
  split; [exact Hd |].
  split.
  - unfold ResetPassword.hashPassword, hashPassword_reset. now rewrite H.
  - unfold verify_spec. cbv zeta. rewrite Hd, streq_refl. reflexivity.
Qed.

(* ================================================================== *)
(** ** What the verifier accepts *)

Lemma verify_spec_self (s : jsstring) : verify_spec s s <> Rejected.
Proof.
  unfold verify_spec. cbv zeta.
  destruct (streq s (hashPassword s)); [discriminate |].
  rewrite streq_refl. discriminate.
Qed.

(** X5.  Whoever presents the stored value itself as the password is
    accepted, be the stored value a plaintext or a digest: the login answers
    200 in every world, and the reset and change handlers go on to write the
    new digest. *)
Theorem stored_value_opens_the_account
  (user : User) (newPassword : jsstring) (w : World) :
  verify_spec (password user) (password user) <> Rejected /\
  (exists w',
      run (Login.login_found user (password user)) w =
      (Some (mkResponse 200
               (JLogin "Login successful" (id user) (email user) (name user))),
       w')) /\
  Api.reset_found user (password user) newPassword =
    (_ <- Api.updateUser (id user) (hashPassword newPassword) ;;
     respond 200 (JMessage "Password reset successfully")) /\
  Api.change_found user (password user) newPassword =
    (_ <- Api.updateUser (id user) (hashPassword newPassword) ;;
     respond 200 (JMessage "Password changed successfully")) /\
  Reset.reset_found user (password user) newPassword =
    (success <- Reset.updateUser (id user) (hashPassword newPassword) ;;
     if negb success then respond 500 (JError "Failed to update password")
     else respond 200 (JUpdated "Password updated successfully" (id user))).
Proof.
  pose proof (verify_spec_self (password user)) as Hv.
  split; [exact Hv |].
  split; [| split; [| split]].
  - rewrite Login_found_dispatch. cbv zeta.
    destruct (verify_spec (password user) (password user));
      [contradiction | |].
    + eexists. reflexivity.
    + cbn [run]. destruct (_ || _); eexists; reflexivity.
  - rewrite Api_reset_found_dispatch.
    destruct (verify_spec (password user) (password user));
      [contradiction | reflexivity | reflexivity].
  - rewrite Api_change_found_dispatch.
    destruct (verify_spec (password user) (password user));
      [contradiction | reflexivity | reflexivity].
  - rewrite Reset_found_dispatch.
    destruct (verify_spec (password user) (password user));
      [contradiction | reflexivity | reflexivity].
Qed.

(** X6.  A row whose password cell is empty rejects every non-empty
    password: the digest is never empty, so neither comparison can succeed,
    and the account can neither log in nor reset. *)
Theorem empty_stored_password_rejects_all
  (i e n p newPassword : jsstring) :
  p <> [] ->
  let user := mkUser i e [] n in
  verify_spec [] p = Rejected /\
  Login.login_found user p = respond 401 (JError "Invalid email or password") /\
  Reset.reset_found user p newPassword =
    respond 400 (JError "Invalid current password") /\
  Api.reset_found user p newPassword =
    respond 400 (JError "Invalid old password") /\
  Api.change_found user p newPassword =
    respond 400 (JError "Invalid current password").
Proof.
  intros Hp user.
  assert (Hv : verify_spec [] p = Rejected).
  { unfold verify_spec. cbv zeta.
    assert (E1 : streq [] (hashPassword p) = false).
    { apply streq_false. intros H. symmetry in H.
      now apply (hashPassword_nonempty p). }
    assert (E2 : streq [] p = false) by (apply streq_false; congruence).
    now rewrite E1, E2. }
  split; [exact Hv |].
  rewrite Login_found_dispatch, Reset_found_dispatch,
    Api_reset_found_dispatch, Api_change_found_dispatch.
  subst user. cbn [password]. rewrite Hv. repeat split; reflexivity.
Qed.

Lemma empty_stored_password_witness :
  verify_spec [] old_password = Rejected /\
  Login.login_found (mkUser (js "1") test_email [] (js "Test")) old_password =
    respond 401 (JError "Invalid email or password") /\
  Reset.reset_found (mkUser (js "1") test_email [] (js "Test"))
                    old_password new_password =
    respond 400 (JError "Invalid current password") /\
  Api.reset_found (mkUser (js "1") test_email [] (js "Test"))
                  old_password new_password =
    respond 400 (JError "Invalid old password") /\
  Api.change_found (mkUser (js "1") test_email [] (js "Test"))
                   old_password new_password =
    respond 400 (JError "Invalid current password").
Proof.
  apply (empty_stored_password_rejects_all
           (js "1") test_email (js "Test") old_password new_password).
  vm_compute. discriminate.
Defined.

(** X7.  A password whose hash is negative, once written by
    [src/api/auth/reset-password.js], no longer verifies in the other
    functions: the stored decimal digest starts with a minus sign, which no
    hexadecimal digest contains, so the login answers 401 and the reset 400
    (unless the password is its own decimal digest). *)
Theorem decimal_digest_locks_out
  (i e n np newPassword : jsstring) :
  hash_loop np < 0 ->
  np <> ResetPassword.hashPassword np ->
  let user := mkUser i e (ResetPassword.hashPassword np) n in
  verify_spec (ResetPassword.hashPassword np) np = Rejected /\
  Login.login_found user np = respond 401 (JError "Invalid email or password") /\
  Reset.reset_found user np newPassword =
    respond 400 (JError "Invalid current password").
Proof.
  intros Hneg Hself user.
  assert (Hv : verify_spec (ResetPassword.hashPassword np) np = Rejected).
  { unfold verify_spec. cbv zeta.
    assert (E1 : streq (ResetPassword.hashPassword np) (hashPassword np) = false).
    { apply streq_false. intros H.
      apply (hashPassword_no_minus np). rewrite <- H.
      unfold ResetPassword.hashPassword, hashPassword_reset.
      rewrite (toString_negative 10 _ Hneg). now left. }
    assert (E2 : streq (ResetPassword.hashPassword np) np = false)
      by (apply streq_false; congruence).
    now rewrite E1, E2. }
  split; [exact Hv |].
  rewrite Login_found_dispatch, Reset_found_dispatch.
  subst user. cbn [password]. rewrite Hv. split; reflexivity.
Qed.

Lemma decimal_digest_locks_out_witness :
  verify_spec (ResetPassword.hashPassword old_password) old_password =
    Rejected /\
  Login.login_found
    (mkUser (js "1") test_email (ResetPassword.hashPassword old_password)
            (js "Test")) old_password =
    respond 401 (JError "Invalid email or password") /\
  Reset.reset_found
    (mkUser (js "1") test_email (ResetPassword.hashPassword old_password)
            (js "Test")) old_password new_password =
    respond 400 (JError "Invalid current password").
Proof.
  apply (decimal_digest_locks_out
           (js "1") test_email (js "Test") old_password new_password).
  - vm_compute. reflexivity.
  - vm_compute. discriminate.
Defined.

(* ================================================================== *)
(** ** Every request is answered *)

Lemma returns_run {A : Type} (P : A -> Prop) (p : Prog A) :
  returns P p ->
  forall w, exists a w', run p w = (Some a, w') /\ P a.
Proof.
  induction p as [a | | d q ok IHok err IHerr | d i v ok IHok err IHerr];
    cbn [returns run]; intros H w.
  - exists a, w. split; [reflexivity | exact H].
  - contradiction.
  - destruct H as [Hok Herr]. destruct (next_fault w).
    + apply IHerr, Herr.
    + apply IHok, Hok.
  - destruct H as [Hok Herr]. destruct (_ || _).
    + apply IHerr, Herr.
    + apply IHok, Hok.
Qed.

(** Walking through every branch of a handler. *)
Ltac walk :=
  repeat first
    [ progress cbn [returns budget quiet bind try_catch respond andb orb negb]
    | match goal with
      | |- _ /\ _ => split
      | |- forall _, _ => intro
      | |- True => exact I
      | |- context [if ?c then _ else _] => destruct c
      | |- context [match ?x with Some _ => _ | None => _ end] => destruct x
      | |- context [match ?x with [] => _ | _ :: _ => _ end] => destruct x
      end ].

Lemma Api_reset_returns (b : Body) :
  returns
    (fun r =>
       In r [mkResponse 400
               (JError "Email, old password, and new password are required");
             mkResponse 400
               (JError "Password must be at least 8 characters long");
             mkResponse 400 (JError "User not found");
             mkResponse 400 (JError "Invalid old password");
             mkResponse 200 (JMessage "Password reset successfully");
             mkResponse 500 (JError "Internal server error")])
    (Api.reset_password b).
Proof.
  unfold Api.reset_password, Api.getUserByEmail, Api.reset_found,
    Api.updateUser, axios_get, axios_patch.
  cbv zeta. walk; cbn [In]; tauto.
Qed.

Lemma Api_change_returns (b : Body) :
  returns
    (fun r =>
       In r [mkResponse 400
               (JError "Email, current password, and new password are required");
             mkResponse 400
               (JError "Password must be at least 8 characters long");
             mkResponse 400 (JError "User not found");
             mkResponse 400 (JError "Invalid current password");
             mkResponse 200 (JMessage "Password changed successfully");
             mkResponse 500 (JError "Internal server error")])
    (Api.change_password b).
Proof.
  unfold Api.change_password, Api.getUserByEmail, Api.change_found,
    Api.updateUser, axios_get, axios_patch.
  cbv zeta. walk; cbn [In]; tauto.
Qed.

(** X8.  The two handlers of [src/api/index.ts] answer every request, in
    every state of the store and whichever calls are rejected: no exception
    escapes, and the response is one of six fixed ones, so that no text of an
    exception or of the store reaches the caller. *)
Theorem api_handlers_always_respond (b : Body) (w : World) :
  (exists r w',
      run (Api.reset_password b) w = (Some r, w') /\
      In r [mkResponse 400
              (JError "Email, old password, and new password are required");
            mkResponse 400
              (JError "Password must be at least 8 characters long");
            mkResponse 400 (JError "User not found");
            mkResponse 400 (JError "Invalid old password");
            mkResponse 200 (JMessage "Password reset successfully");
            mkResponse 500 (JError "Internal server error")]) /\
  (exists r w',
      run (Api.change_password b) w = (Some r, w') /\
      In r [mkResponse 400
              (JError "Email, current password, and new password are required");
            mkResponse 400
              (JError "Password must be at least 8 characters long");
            mkResponse 400 (JError "User not found");
            mkResponse 400 (JError "Invalid current password");
            mkResponse 200 (JMessage "Password changed successfully");
            mkResponse 500 (JError "Internal server error")]).
Proof.
  split.
  - exact (returns_run _ _ (Api_reset_returns b) w).
  - exact (returns_run _ _ (Api_change_returns b) w).
Qed.

Lemma Login_returns (req : Request) :
  returns
    (fun r =>
       In r [mkResponse 200 JEnd;
             mkResponse 405 (JError "Method not allowed");
             mkResponse 400 (JError "Email and password are required");
             mkResponse 401 (JError "Invalid email or password")] \/
       exists i e n, r = mkResponse 200 (JLogin "Login successful" i e n))
    (Login.handler true req).
Proof.
  unfold Login.handler, Login.getUserByEmail, Login.login_found,
    axios_get, axios_patch.
  cbv zeta. cbn [negb].
  walk; cbn [In]; try tauto; right; eauto.
Qed.

Lemma Reset_returns (req : Request) :
  returns
    (fun r =>
       In r [mkResponse 200 JEnd;
             mkResponse 405 (JError "Method not allowed");
             mkResponse 400
               (JError "Email, current Password, and new Password are required");
             mkResponse 404 (JError "User not found");
             mkResponse 400 (JError "Invalid current password");
             mkResponse 500 (JError "Failed to update password")] \/
       exists i, r = mkResponse 200 (JUpdated "Password updated successfully" i))
    (Reset.handler true req).
Proof.
  unfold Reset.handler, Reset.getUserByEmail, Reset.reset_found,
    Reset.updateUser, axios_get, axios_patch.
  cbv zeta. cbn [negb].
  walk; cbn [In]; try tauto; right; eauto.
Qed.

Lemma ResetPassword_returns (req : Request) :
  returns
    (fun r =>
       In r [mkResponse 200 JEnd;
             mkResponse 405 (JError "Method not allowed");
             mkResponse 400 (JError "Email and newPassword are required");
             mkResponse 404 (JError "User not found");
             mkResponse 500 (JError "Failed to update password")] \/
       exists i, r = mkResponse 200 (JUpdated "Password updated successfully" i))
    (ResetPassword.handler true req).
Proof.
  unfold ResetPassword.handler, ResetPassword.getUserByEmail,
    ResetPassword.updateUser, axios_get, axios_patch.
  cbv zeta. cbn [negb].
  walk; cbn [In]; try tauto; right; eauto.
Qed.

(** X9.  The three serverless functions answer every request whose body is
    an object with string or absent properties, whatever the store does.
    Their helpers catch every rejected call themselves, so no failure of the
    store reaches the outer [catch]: on such a request the login answers
    200, 400, 401 or 405 and never 500, and the 500 of the two resets is
    always [Failed to update password], never [Internal server error].  (A
    password that is not a string is outside this statement: [hashPassword]
    throws on a non-empty array, and the outer [catch] then answers
    [Internal server error].) *)
Theorem serverless_handlers_always_respond (req : Request) (w : World) :
  (exists r w',
      run (Login.handler true req) w = (Some r, w') /\
      (In r [mkResponse 200 JEnd;
             mkResponse 405 (JError "Method not allowed");
             mkResponse 400 (JError "Email and password are required");
             mkResponse 401 (JError "Invalid email or password")] \/
       exists i e n, r = mkResponse 200 (JLogin "Login successful" i e n))) /\
  (exists r w',
      run (Reset.handler true req) w = (Some r, w') /\
      (In r [mkResponse 200 JEnd;
             mkResponse 405 (JError "Method not allowed");
             mkResponse 400
               (JError "Email, current Password, and new Password are required");
             mkResponse 404 (JError "User not found");
             mkResponse 400 (JError "Invalid current password");
             mkResponse 500 (JError "Failed to update password")] \/
       exists i,
         r = mkResponse 200 (JUpdated "Password updated successfully" i))) /\
  (exists r w',
      run (ResetPassword.handler true req) w = (Some r, w') /\
      (In r [mkResponse 200 JEnd;
             mkResponse 405 (JError "Method not allowed");
             mkResponse 400 (JError "Email and newPassword are required");
             mkResponse 404 (JError "User not found");
             mkResponse 500 (JError "Failed to update password")] \/
       exists i,
         r = mkResponse 200 (JUpdated "Password updated successfully" i))).
Proof.
  split; [| split].
  - exact (returns_run _ _ (Login_returns req) w).
  - exact (returns_run _ _ (Reset_returns req) w).
  - exact (returns_run _ _ (ResetPassword_returns req) w).
Qed.

(* ================================================================== *)
(** ** The calls a request makes *)









(* ================================================================== *)
(** ** Guards of the serverless functions *)

(** X11.  A serverless function that is not configured answers 500 to
    every request, and a configured one answers a request whose method is
    not [POST] with 200 (method [OPTIONS]) or 405 (any other): in both cases
    the body is not looked at and the store is not called. *)
Theorem serverless_guards_touch_nothing (req : Request) :
  (Login.handler false req = not_configured /\
   Reset.handler false req = not_configured /\
   ResetPassword.handler false req = not_configured) /\
  (method req <> "POST"%string ->
   let r := if String.eqb (method req) "OPTIONS"
            then mkResponse 200 JEnd
            else mkResponse 405 (JError "Method not allowed") in
   Login.handler true req = Ret r /\
   Reset.handler true req = Ret r /\
   ResetPassword.handler true req = Ret r).
Proof.
  split; [repeat split; reflexivity |].
  intros Hm r. subst r.
  unfold Login.handler, Reset.handler, ResetPassword.handler. cbn [negb].
  destruct (String.eqb (method req) "OPTIONS") eqn:Eo.
  - repeat split; reflexivity.
  - destruct (String.eqb (method req) "POST") eqn:Ep.
    + apply String.eqb_eq in Ep. contradiction.
    + repeat split; reflexivity.
Qed.

Lemma serverless_guards_witness :
  Login.handler true (mkRequest "GET" (login_body test_email old_password)) =
    Ret (mkResponse 405 (JError "Method not allowed")) /\
  Reset.handler true (mkRequest "GET" (login_body test_email old_password)) =
    Ret (mkResponse 405 (JError "Method not allowed")) /\
  ResetPassword.handler true
    (mkRequest "GET" (login_body test_email old_password)) =
    Ret (mkResponse 405 (JError "Method not allowed")).
Proof.
  apply (proj2 (serverless_guards_touch_nothing
                  (mkRequest "GET" (login_body test_email old_password)))).
  discriminate.
Defined.

(* ================================================================== *)
(** ** Lookups *)

(** X12.  The lookup of the login and of the reset of [src/unnamed] reads
    the draft rows first: a draft row with the email is returned without
    consulting the published rows, whatever they hold; the published rows
    are asked only when the draft has none; and a rejected call, the first
    or the second, gives [null] like an unknown email. *)
Theorem draft_rows_shadow_published (e : jsstring) (w : World) :
  Login.getUserByEmail e = Reset.getUserByEmail e /\
  (next_fault w = true ->
   run (Reset.getUserByEmail e) w =
     (Some None, record (AxiosGet true (Some e)) false (db w) w)) /\
  (next_fault w = false ->
   forall row rest,
     query (Some e) (draft (db w)) = row :: rest ->
     run (Reset.getUserByEmail e) w =
       (Some (Some (user_of_row row)),
        record (AxiosGet true (Some e)) true (db w) w)) /\
  (next_fault w = false ->
   query (Some e) (draft (db w)) = [] ->
   run (Reset.getUserByEmail e) w =
     let w1 := record (AxiosGet true (Some e)) true (db w) w in
     if next_fault w1
     then (Some None, record (AxiosGet false (Some e)) false (db w) w1)
     else (Some (option_map user_of_row
                   (hd_error (query (Some e) (published (db w))))),
           record (AxiosGet false (Some e)) true (db w) w1)).
Proof.
  split; [reflexivity |].
  unfold Reset.getUserByEmail, axios_get. cbn [bind try_catch run].
  split; [| split].
  - intros Hf. rewrite Hf. reflexivity.
  - intros Hf row rest Hq. rewrite Hf. cbn [version]. rewrite Hq. reflexivity.
  - intros Hf Hq. rewrite Hf. cbn [version]. rewrite Hq.
    cbn [bind try_catch run]. cbv zeta.
    destruct (next_fault (record (AxiosGet true (Some e)) true (db w) w));
      [reflexivity |].
    change (db (record (AxiosGet true (Some e)) true (db w) w)) with (db w).
    cbn [version].
    destruct (query (Some e) (published (db w))); reflexivity.
Qed.

Lemma draft_rows_shadow_published_witness :
  run (Reset.getUserByEmail test_email)
      (mkWorld (mkHubDB [row_hashed] [row_plain]) [] []) =
    (Some (Some (user_of_row row_hashed)),
     mkWorld (mkHubDB [row_hashed] [row_plain]) []
             [(AxiosGet true (Some test_email), true)]).
Proof.
  apply (proj1 (proj2 (proj2 (draft_rows_shadow_published test_email
           (mkWorld (mkHubDB [row_hashed] [row_plain]) [] []))))
           eq_refl row_hashed []).
  vm_compute. reflexivity.
Defined.

(** X13.  The lookup of [src/api/index.ts] fetches all published rows and
    returns the first whose email cell equals the email asked for; a
    rejected GET is thrown on to the caller.  The empty email is never
    found, not even on a row whose email cell is empty. *)
Theorem api_lookup_finds_first_row (e : jsstring) (w : World) :
  (e <> [] ->
   run (Api.getUserByEmail e) w =
     if next_fault w
     then (None, record (AxiosGet false None) false (db w) w)
     else (Some (option_map user_of_row
                   (hd_error (query (Some e) (published (db w))))),
           record (AxiosGet false None) true (db w) w)) /\
  run (Api.getUserByEmail []) w =
    if next_fault w
    then (None, record (AxiosGet false None) false (db w) w)
    else (Some None, record (AxiosGet false None) true (db w) w).
Proof.
  unfold Api.getUserByEmail, axios_get. cbn [bind try_catch run].
  split.
  - intros Ne. destruct (next_fault w); [reflexivity |].
    cbn [version].
    change (query None (published (db w))) with (published (db w)).
    rewrite (find_rowEmail e _ Ne).
    destruct (query (Some e) (published (db w))); reflexivity.
  - destruct (next_fault w); [reflexivity |].
    cbn [version].
    change (query None (published (db w))) with (published (db w)).
    assert (H : forall rows,
               find (fun row => field_is (Api.rowEmail row) []) rows = None).
    { induction rows as [|row rows IH]; [reflexivity |].
      cbn [find]. unfold Api.rowEmail at 1.
      destruct (values_email row) as [|c s]; cbn [field_is]; [exact IH |].
      assert (E : streq (c :: s) [] = false)
        by (apply streq_false; discriminate).
      rewrite E. exact IH. }
    rewrite H. reflexivity.
Qed.

Lemma api_lookup_witness :
  run (Api.getUserByEmail test_email) (world_of row_plain []) =
    (Some (Some (user_of_row row_plain)),
     mkWorld (mkHubDB [row_plain] [row_plain]) []
             [(AxiosGet false None, true)]).
Proof.
  rewrite (proj1 (api_lookup_finds_first_row test_email
                    (world_of row_plain []))).
  - vm_compute. reflexivity.
  - vm_compute. discriminate.
Defined.

(* ================================================================== *)
(** ** The test server and the real one *)



Lemma rowEmail_row_plain : Api.rowEmail row_plain = Some test_email.
Proof. reflexivity. Qed.

Lemma streq_sym (a b : jsstring) : streq a b = streq b a.
Proof.
  destruct (streq b a) eqn:E.
  - apply streq_true in E. subst. apply streq_refl.
  - apply streq_false in E. apply streq_false. congruence.
Qed.

Lemma test_server_simulates_reset (b : Body) :
  exists r1 r2 w',
    Server.reset_password b = Ret r1 /\
    run (Api.reset_password b) (world_of row_plain []) = (Some r2, w') /\
    status r1 = status r2.
Proof.
  unfold Server.reset_password, Api.reset_password. cbv zeta.
  destruct (falsy (body_email b) || falsy (body_oldPassword b)
            || falsy (body_newPassword b)) eqn:E1.
  { do 3 eexists. split; [reflexivity |]. split; reflexivity. }
  destruct (length_js (str (body_newPassword b)) <? 8).
  { do 3 eexists. split; [reflexivity |]. split; reflexivity. }
  apply orb_false_iff in E1. destruct E1 as [E1 _].
  apply orb_false_iff in E1. destruct E1 as [Ee Eo].
  destruct (body_email b) as [e|]; [| discriminate].
  destruct (body_oldPassword b) as [o|]; [| discriminate].
  cbn [str field_is].
  change (js "test@example.com") with test_email.
  change (js "oldpassword123") with old_password.
  unfold Api.getUserByEmail, axios_get. cbn [bind try_catch run].
  change (next_fault (world_of row_plain [])) with false. cbv iota.
  change (query None (version false (db (world_of row_plain []))))
    with [row_plain].
  cbn [find]. rewrite rowEmail_row_plain. cbn [field_is].
  rewrite (streq_sym e test_email).
  destruct (streq test_email e) eqn:Et; cbn [andb bind try_catch run].
  2:{ do 3 eexists. split; [reflexivity |]. split; reflexivity. }
  rewrite run_try_catch, Api_reset_found_dispatch.
  change (password (mkUser (row_id row_plain) (values_email row_plain)
                           (values_password row_plain) (values_name row_plain)))
    with old_password.
  rewrite (streq_sym o old_password).
  destruct (verify_spec_cases old_password o)
    as [[H1 H2] | [(H1 & H2 & H3) | (H1 & H2 & H3)]].
  - exfalso. symmetry in H1. exact (old_password_is_no_digest o H1).
  - rewrite H3. subst o. rewrite streq_refl.
    unfold Api.updateUser, axios_patch. cbn [bind try_catch run].
    change (next_fault (record (AxiosGet false None) true
                          (db (world_of row_plain []))
                          (world_of row_plain []))) with false.
    change (has_row (id (mkUser (row_id row_plain) (values_email row_plain)
                                (values_password row_plain)
                                (values_name row_plain)))
              (version false (db (record (AxiosGet false None) true
                                    (db (world_of row_plain []))
                                    (world_of row_plain []))))) with true.
    cbn [negb orb run respond].
    do 3 eexists. split; [reflexivity |]. split; reflexivity.
  - rewrite H3. apply streq_false in H2. rewrite H2.
    cbn [run respond].
    do 3 eexists. split; [reflexivity |]. split; reflexivity.
Qed.

Lemma test_server_simulates_change (b : Body) :
  exists r1 r2 w',
    Server.change_password b = Ret r1 /\
    run (Api.change_password b) (world_of row_plain []) = (Some r2, w') /\
    status r1 = status r2.
Proof.
  unfold Server.change_password, Api.change_password. cbv zeta.
  destruct (falsy (body_email b) || falsy (body_currentPassword b)
            || falsy (body_newPassword b)) eqn:E1.
  { do 3 eexists. split; [reflexivity |]. split; reflexivity. }
  destruct (length_js (str (body_newPassword b)) <? 8).
  { do 3 eexists. split; [reflexivity |]. split; reflexivity. }
  apply orb_false_iff in E1. destruct E1 as [E1 _].
  apply orb_false_iff in E1. destruct E1 as [Ee Eo].
  destruct (body_email b) as [e|]; [| discriminate].
  destruct (body_currentPassword b) as [o|]; [| discriminate].
  cbn [str field_is].
  change (js "test@example.com") with test_email.
  change (js "oldpassword123") with old_password.
  unfold Api.getUserByEmail, axios_get. cbn [bind try_catch run].
  change (next_fault (world_of row_plain [])) with false. cbv iota.
  change (query None (version false (db (world_of row_plain []))))
    with [row_plain].
  cbn [find]. rewrite rowEmail_row_plain. cbn [field_is].
  rewrite (streq_sym e test_email).
  destruct (streq test_email e) eqn:Et; cbn [andb bind try_catch run].
  2:{ do 3 eexists. split; [reflexivity |]. split; reflexivity. }
  rewrite run_try_catch, Api_change_found_dispatch.
  change (password (mkUser (row_id row_plain) (values_email row_plain)
                           (values_password row_plain) (values_name row_plain)))
    with old_password.
  rewrite (streq_sym o old_password).
  destruct (verify_spec_cases old_password o)
    as [[H1 H2] | [(H1 & H2 & H3) | (H1 & H2 & H3)]].
  - exfalso. symmetry in H1. exact (old_password_is_no_digest o H1).
  - rewrite H3. subst o. rewrite streq_refl.
    unfold Api.updateUser, axios_patch. cbn [bind try_catch run].
    change (next_fault (record (AxiosGet false None) true
                          (db (world_of row_plain []))
                          (world_of row_plain []))) with false.
    change (has_row (id (mkUser (row_id row_plain) (values_email row_plain)
                                (values_password row_plain)
                                (values_name row_plain)))
              (version false (db (record (AxiosGet false None) true
                                    (db (world_of row_plain []))
                                    (world_of row_plain []))))) with true.
    cbn [negb orb run respond].
    do 3 eexists. split; [reflexivity |]. split; reflexivity.
  - rewrite H3. apply streq_false in H2. rewrite H2.
    cbn [run respond].
    do 3 eexists. split; [reflexivity |]. split; reflexivity.
Qed.

(** X15.  The test server [src/server.js] simulates [src/api/index.ts] over
    a table that holds its test account in plaintext: for every request
    body whose properties are strings or absent, the status the test server
    answers is the status the real handler answers on that table when no
    call is rejected, for the reset and for the change of password.  (Bodies
    with other values are outside this statement: on an old password that
    is a non-empty array the test server answers 400 without hashing it,
    and the real handler hashes it first, which throws.) *)
Theorem test_server_simulates_test_account (b : Body) :
  (exists r1 r2 w',
      Server.reset_password b = Ret r1 /\
      run (Api.reset_password b) (world_of row_plain []) = (Some r2, w') /\
      status r1 = status r2) /\
  (exists r1 r2 w',
      Server.change_password b = Ret r1 /\
      run (Api.change_password b) (world_of row_plain []) = (Some r2, w') /\
      status r1 = status r2).
Proof.
  split; [apply test_server_simulates_reset | apply test_server_simulates_change].
Qed.

(* ================================================================== *)
(** ** Login after login, login after reset *)

(** A login against a stored digest reads once and writes nothing. *)
Lemma Login_hashed_read_only
      (req : Request) (w : World) (e p : jsstring) :
  method req = "POST"%string ->
  body_email (body req) = Some e ->
  body_password (body req) = Some p ->
  e <> [] -> p <> [] ->
  next_fault w = false ->
  stored e (draft (db w)) = Some (hashPassword p) ->
  exists i e' n,
    run (Login.handler true req) w =
      (Some (mkResponse 200 (JLogin "Login successful" i e' n)),
       record (AxiosGet true (Some e)) true (db w) w).
Proof.
  intros Hm He Hp Ne Np Hf Hs.
  unfold Login.handler. cbn [negb]. enter_post Hm.
  rewrite He, Hp. cbv zeta.
  destruct e as [|c1 e]; [contradiction |].
  destruct p as [|c2 p]; [contradiction |].
  cbn [falsy orb str].
  unfold Login.getUserByEmail, axios_get. cbn [bind try_catch run].
  rewrite Hf. cbn [version]. unfold stored in Hs.
  destruct (query _ (draft (db w))) as [|row rest] eqn:Hq; [discriminate |].
  inversion Hs as [Hs'].
  cbn [bind try_catch run]. rewrite run_try_catch, Login_found_dispatch.
  cbv zeta. cbn [user_of_row id email password name].
  unfold verify_spec. cbv zeta. rewrite Hs', streq_refl.
  cbn [run respond]. do 3 eexists. reflexivity.
Qed.

(** A login against a stored plaintext, both calls resolving, writes the
    digest to the draft row. *)
Lemma Login_plaintext_upgrades
      (req : Request) (w : World) (e p : jsstring) :
  method req = "POST"%string ->
  body_email (body req) = Some e ->
  body_password (body req) = Some p ->
  e <> [] -> p <> [] ->
  next_fault w = false ->
  hd false (tl (faults w)) = false ->
  stored e (draft (db w)) = Some p ->
  p <> hashPassword p ->
  exists r i w',
    run (Login.handler true req) w = (Some r, w') /\
    status r = 200 /\
    faults w' = tl (tl (faults w)) /\
    calls w' = calls w ++ [(AxiosGet true (Some e), true);
                           (AxiosPatch true i (hashPassword p), true)] /\
    stored e (draft (db w')) = Some (hashPassword p).
Proof.
  intros Hm He Hp Ne Np Hf1 Hf2 Hs Hne.
  unfold Login.handler. cbn [negb]. enter_post Hm.
  rewrite He, Hp. cbv zeta.
  destruct e as [|c1 e]; [contradiction |].
  destruct p as [|c2 p]; [contradiction |].
  cbn [falsy orb str].
  unfold Login.getUserByEmail, axios_get. cbn [bind try_catch run].
  rewrite Hf1. cbn [version]. unfold stored in Hs.
  destruct (query _ (draft (db w))) as [|row rest] eqn:Hq; [discriminate |].
  inversion Hs as [Hs'].
  cbn [bind try_catch run]. rewrite run_try_catch, Login_found_dispatch.
  cbv zeta. cbn [user_of_row id email password name].
  rewrite Hs', (verify_spec_plaintext _ (not_eq_sym Hne)).
  cbn [run]. unfold next_fault at 1. unfold record at 1 2.
  cbn [faults db version].
  rewrite Hf2, (query_has_row _ _ _ _ Hq). cbn [negb orb run respond].
  do 3 eexists. split; [reflexivity |].
  split; [reflexivity |].
  split; [reflexivity |].
  split; [cbn [record calls]; now rewrite <- app_assoc |].
  cbn [record db patch_db draft].
  exact (stored_patch_rows _ _ _ _ _ _ Hq eq_refl).
Qed.

(** X16.  The plaintext is upgraded once.  When a record of the draft table
    stores the password in plaintext, that password is not its own digest
    and no call is rejected, the first login with that password succeeds
    and writes the digest; a second login with the same request succeeds
    with one GET and no PATCH, and leaves the table as the first login left
    it.  (A stored password that is its own digest, such as [7b53fda], is
    taken for a digest: the first login already writes nothing.) *)
Theorem plaintext_is_upgraded_once
  (req : Request) (w : World) (e p : jsstring) :
  method req = "POST"%string ->
  body_email (body req) = Some e ->
  body_password (body req) = Some p ->
  e <> [] -> p <> [] ->
  faults w = [] ->
  stored e (draft (db w)) = Some p ->
  p <> hashPassword p ->
  exists r1 r2 i w1 w2,
    run (Login.handler true req) w = (Some r1, w1) /\
    run (Login.handler true req) w1 = (Some r2, w2) /\
    status r1 = 200 /\ status r2 = 200 /\
    calls w1 = calls w ++ [(AxiosGet true (Some e), true);
                           (AxiosPatch true i (hashPassword p), true)] /\
    calls w2 = calls w1 ++ [(AxiosGet true (Some e), true)] /\
    db w2 = db w1 /\
    stored e (draft (db w2)) = Some (hashPassword p).
Proof.
  intros Hm He Hp Ne Np Hf Hs Hne.
  destruct (Login_plaintext_upgrades req w e p Hm He Hp Ne Np)
    as (r1 & i & w1 & Hrun1 & Hst1 & Hfs & Hc1 & Hs1);
    try assumption; try (unfold next_fault; rewrite Hf; reflexivity).
  rewrite Hf in Hfs. cbn in Hfs.
  destruct (Login_hashed_read_only req w1 e p Hm He Hp Ne Np)
    as (i2 & e2 & n2 & Hrun2);
    try assumption; try (unfold next_fault; rewrite Hfs; reflexivity).
  exists r1, (mkResponse 200 (JLogin "Login successful" i2 e2 n2)), i, w1,
    (record (AxiosGet true (Some e)) true (db w1) w1).
  repeat split; try assumption; reflexivity.
Qed.

Lemma plaintext_is_upgraded_once_witness :
  exists r1 r2 i w1 w2,
    run (Login.handler true (post (login_body test_email old_password)))
        (world_of row_plain []) = (Some r1, w1) /\
    run (Login.handler true (post (login_body test_email old_password))) w1 =
      (Some r2, w2) /\
    status r1 = 200 /\ status r2 = 200 /\
    calls w1 = [] ++ [(AxiosGet true (Some test_email), true);
                      (AxiosPatch true i (hashPassword old_password), true)] /\
    calls w2 = calls w1 ++ [(AxiosGet true (Some test_email), true)] /\
    db w2 = db w1 /\
    stored test_email (draft (db w2)) = Some (hashPassword old_password).
Proof.
  apply (plaintext_is_upgraded_once
           (post (login_body test_email old_password))
           (world_of row_plain []) test_email old_password).
  - reflexivity.
  - reflexivity.
  - reflexivity.
  - vm_compute. discriminate.
  - vm_compute. discriminate.
  - reflexivity.
  - vm_compute. reflexivity.
  - vm_compute. discriminate.
Defined.

(** X17.  Reset, then login.  After a successful reset through
    [src/unnamed/part_001] of a record of the draft table, a login with the
    new password (its GET resolving) succeeds on the hashed path: one GET,
    no PATCH, the table untouched. *)
Theorem login_after_reset
  (req login : Request) (w w1 : World) (r : Response) (e np s : jsstring) :
  method req = "POST"%string ->
  body_email (body req) = Some e ->
  body_newPassword (body req) = Some np ->
  stored e (draft (db w)) = Some s ->
  run (Reset.handler true req) w = (Some r, w1) ->
  status r = 200 ->
  method login = "POST"%string ->
  body_email (body login) = Some e ->
  body_password (body login) = Some np ->
  e <> [] -> np <> [] ->
  next_fault w1 = false ->
  exists i e' n,
    run (Login.handler true login) w1 =
      (Some (mkResponse 200 (JLogin "Login successful" i e' n)),
       record (AxiosGet true (Some e)) true (db w1) w1).
Proof.
  intros Hm He Hn Hs Hrun Hst Hm' He' Hp' Ne Nn Hf.
  apply (Login_hashed_read_only login w1 e np); try assumption.
  exact (Reset_success_stores_digest req w w1 r e np s Hm He Hn Hs Hrun Hst).
Qed.

Lemma login_after_reset_witness :
  exists i e' n,
    run (Login.handler true (post (login_body test_email new_password)))
        (mkWorld
           (mkHubDB [set_password (hashPassword new_password) row_plain]
                    [row_plain])
           []
           [(AxiosGet true (Some test_email), true);
            (AxiosPatch true (js "1") (hashPassword new_password), true)]) =
      (Some (mkResponse 200 (JLogin "Login successful" i e' n)),
       record (AxiosGet true (Some test_email)) true
         (mkHubDB [set_password (hashPassword new_password) row_plain]
                  [row_plain])
         (mkWorld
            (mkHubDB [set_password (hashPassword new_password) row_plain]
                     [row_plain])
            []
            [(AxiosGet true (Some test_email), true);
             (AxiosPatch true (js "1") (hashPassword new_password), true)])).
Proof.
  apply (login_after_reset
           (post (reset_body test_email old_password new_password))
           (post (login_body test_email new_password))
           (world_of row_plain [])
           (mkWorld
              (mkHubDB [set_password (hashPassword new_password) row_plain]
                       [row_plain])
              []
              [(AxiosGet true (Some test_email), true);
               (AxiosPatch true (js "1") (hashPassword new_password), true)])
           (mkResponse 200
              (JUpdated "Password updated successfully" (js "1")))
           test_email new_password old_password).
  - reflexivity.
  - reflexivity.
  - reflexivity.
  - vm_compute. reflexivity.
  - vm_compute. reflexivity.
  - reflexivity.
  - reflexivity.
  - reflexivity.
  - reflexivity.
  - vm_compute. discriminate.
  - vm_compute. discriminate.
  - reflexivity.
Defined.

(* ================================================================== *)
(** ** Failures of the store, file by file *)

Lemma Api_change_failure_is_500 (b : Body) (t : HubDB) (fs : list bool)
      (r : option Response) (w' : World) (c : Call) :
  run (Api.change_password b) (mkWorld t fs []) = (r, w') ->
  In (c, false) (calls w') ->
  r = Some (mkResponse 500 (JError "Internal server error")).
Proof.
  unfold Api.change_password. cbv zeta.
  destruct (falsy (body_email b) || falsy (body_currentPassword b)
            || falsy (body_newPassword b)).
  { intros H; inversion H; subst. intros []. }
  destruct (length_js (str (body_newPassword b)) <? 8).
  { intros H; inversion H; subst. intros []. }
  unfold Api.getUserByEmail, axios_get. cbn [bind try_catch run].
  destruct (next_fault _).
  { intros H; inversion H; subst. reflexivity. }
  cbn [version db record calls faults app].
  destruct (find _ _) as [userRow|].
  2:{ intros H; inversion H; subst. cbn. intros [H1 | []]. discriminate. }
  cbn [bind try_catch run].
  unfold Api.change_found. cbv zeta. cbn [id password].
  unfold Api.updateUser, axios_patch.
  destruct (negb (streq (values_password userRow) _)).
  - destruct (negb (streq (values_password userRow) _)).
    { intros H; inversion H; subst. cbn. intros [H1 | []]. discriminate. }
    cbn [bind try_catch run]. destruct (_ || _).
    + intros H; inversion H; subst. reflexivity.
    + intros H; inversion H; subst. cbn.
      intros [H1 | [H1 | []]]; discriminate.
  - cbn [bind try_catch run]. destruct (_ || _).
    + intros H; inversion H; subst. reflexivity.
    + intros H; inversion H; subst. cbn.
      intros [H1 | [H1 | []]]; discriminate.
Qed.

(** X18.  In [src/api/index.ts] a request during which a call to the store
    is rejected, the lookup or the write, is answered 500
    [Internal server error], for the reset and for the change handler. *)
Theorem api_rejected_call_answers_500
  (b : Body) (t : HubDB) (fs : list bool) (c : Call) :
  (forall r w',
      run (Api.reset_password b) (mkWorld t fs []) = (r, w') ->
      In (c, false) (calls w') ->
      r = Some (mkResponse 500 (JError "Internal server error"))) /\
  (forall r w',
      run (Api.change_password b) (mkWorld t fs []) = (r, w') ->
      In (c, false) (calls w') ->
      r = Some (mkResponse 500 (JError "Internal server error"))).
Proof.
  split; intros r w'.
  - apply Api_failure_is_500.
  - apply Api_change_failure_is_500.
Qed.

Lemma api_rejected_call_witness :
  Some (mkResponse 500 (JError "Internal server error")) =
  Some (mkResponse 500 (JError "Internal server error")).
Proof.
  apply (proj1 (api_rejected_call_answers_500
                  (reset_body test_email old_password new_password)
                  (mkHubDB [row_plain] [row_plain]) [false; true]
                  (AxiosPatch false (js "1") (hashPassword new_password)))
               (Some (mkResponse 500 (JError "Internal server error")))
               (mkWorld (mkHubDB [row_plain] [row_plain]) []
                  [(AxiosGet false None, true);
                   (AxiosPatch false (js "1") (hashPassword new_password),
                    false)])).
  - vm_compute. reflexivity.
  - right. left. reflexivity.
Defined.




(** X20.  In the serverless reset of [src/unnamed/part_001] a rejected
    write, after an accepted old password, is answered 500
    [Failed to update password] and leaves the table as it was; the same
    handler, its write resolving, answers 200. *)
Theorem reset_rejected_write_answers_500
  (user : User) (p np : jsstring) (w : World) :
  verify_spec (password user) p <> Rejected ->
  (next_fault w || negb (has_row (id user) (draft (db w))) = true ->
   run (Reset.reset_found user p np) w =
     (Some (mkResponse 500 (JError "Failed to update password")),
      record (AxiosPatch true (id user) (hashPassword np)) false (db w) w)) /\
  (next_fault w || negb (has_row (id user) (draft (db w))) = false ->
   run (Reset.reset_found user p np) w =
     (Some (mkResponse 200
              (JUpdated "Password updated successfully" (id user))),
      record (AxiosPatch true (id user) (hashPassword np)) true
             (patch_db true (id user) (hashPassword np) (db w)) w)).
Proof.
  intros Hv. split; intros Hc.
  - now apply Reset_write_failure_500.
  - rewrite Reset_found_dispatch. unfold Reset.updateUser, axios_patch.
    destruct (verify_spec (password user) p); [contradiction | |];
      cbn [bind try_catch run version]; rewrite Hc; reflexivity.
Qed.

Lemma reset_rejected_write_witness :
  run (Reset.reset_found (user_of_row row_plain) old_password new_password)
      (world_of row_plain [true]) =
    (Some (mkResponse 500 (JError "Failed to update password")),
     record (AxiosPatch true (js "1") (hashPassword new_password)) false
            (mkHubDB [row_plain] [row_plain]) (world_of row_plain [true])).
Proof.
  apply (proj1 (reset_rejected_write_answers_500
                  (user_of_row row_plain) old_password new_password
                  (world_of row_plain [true])
                  ltac:(vm_compute; discriminate))).
  reflexivity.
Defined.

(** X21.  The best-effort write-back of the login.  On a plaintext match
    the login tries to write the digest to the draft row; when that PATCH is
    rejected it answers 200 all the same and the table keeps the plaintext;
    when it resolves the answer is the same 200 and the row holds the
    digest. *)
Theorem login_write_back_is_best_effort
  (user : User) (p : jsstring) (w : World) :
  password user = p ->
  p <> hashPassword p ->
  exists resolved,
    run (Login.login_found user p) w =
      (Some (mkResponse 200
               (JLogin "Login successful" (id user) (email user) (name user))),
       record (AxiosPatch true (id user) (hashPassword p)) resolved
              (if resolved
               then patch_db true (id user) (hashPassword p) (db w)
               else db w)
              w).
Proof.
  intros Hs Hne.
  destruct (next_fault w || negb (has_row (id user) (draft (db w)))) eqn:Hc.
  - exists false. now apply Login_migration_failure_swallowed.
  - exists true. rewrite Login_found_dispatch. cbv zeta.
    rewrite Hs, (verify_spec_plaintext _ (not_eq_sym Hne)).
    cbn [run version]. rewrite Hc. reflexivity.
Qed.

Lemma login_write_back_witness :
  exists resolved,
    run (Login.login_found (user_of_row row_plain) old_password)
        (world_of row_plain [true]) =
      (Some (mkResponse 200
               (JLogin "Login successful" (js "1") test_email (js "Test"))),
       record (AxiosPatch true (js "1") (hashPassword old_password)) resolved
              (if resolved
               then patch_db true (js "1") (hashPassword old_password)
                             (mkHubDB [row_plain] [row_plain])
               else mkHubDB [row_plain] [row_plain])
              (world_of row_plain [true])).
Proof.
  apply (login_write_back_is_best_effort
           (user_of_row row_plain) old_password (world_of row_plain [true])).
  - reflexivity.
  - vm_compute. discriminate.
Defined.

(* ================================================================== *)
(** ** The client class *)

Lemma crun_cbind {A B : Type} (p : Client.CProg A) (f : A -> Client.CProg B) :
  forall n,
    Client.crun (Client.cbind p f) n =
    match Client.crun p n with
    | (inl a, n') => Client.crun (f a) n'
    | (inr m, n') => (inr m, n')
    end.
Proof.
  induction p as [a | m | u b k IH]; intros n; cbn.
  - reflexivity.
  - reflexivity.
  - apply IH.
Qed.

Lemma crun_ctry_catch {A : Type} (p : Client.CProg A)
      (handler : jsstring -> Client.CProg A) :
  forall n,
    Client.crun (Client.ctry_catch p handler) n =
    match Client.crun p n with
    | (inl a, n') => (inl a, n')
    | (inr m, n') => Client.crun (handler m) n'
    end.
Proof.
  induction p as [a | m | u b k IH]; intros n; cbn.
  - reflexivity.
  - reflexivity.
  - apply IH.
Qed.

(** X22.  Each of the three request methods of the client, called with
    strings, sends exactly one POST, to its own endpoint under the base URL
    and with its own payload, and always returns a result object, never
    throwing.  The result is a success exactly when the response is [ok]
    and its body parses, be it to [null]; otherwise its [error] is the
    message of the rejection, or, the response not being [ok], the text of
    the [message] property of the body, the default text of the method
    when that property is absent or falsy, and the message of the
    [TypeError] of reading [data.message] when the body is [null]. *)
Theorem client_methods_send_one_request
  (baseURL email token newPassword : jsstring) (n : Client.Net) :
  let outcome_result ok_message default_error fail_message o :=
    match o with
    | Client.NetworkError m =>
        Client.mkResult false None (Some m) fail_message
    | Client.Answered _ (Client.NotJson m) =>
        Client.mkResult false None (Some m) fail_message
    | Client.Answered true Client.JsonNull =>
        Client.mkResult true (Some None) None ok_message
    | Client.Answered true (Client.JsonData d) =>
        Client.mkResult true (Some (Some d)) None ok_message
    | Client.Answered false Client.JsonNull =>
        Client.mkResult false None (Some Client.null_message_error)
          fail_message
    | Client.Answered false (Client.JsonData d) =>
        Client.mkResult false None
          (Some (Client.message_or d default_error)) fail_message
    end in
  let o := hd Client.offline (Client.outcomes n) in
  let after url payload :=
    Client.mkNet (tl (Client.outcomes n)) (Client.sent n ++ [(url, payload)]) in
  Client.crun (Client.requestPasswordReset baseURL email) n =
    (inl (outcome_result "Password reset email sent successfully"%string
            (js "Failed to request password reset")
            "Failed to request password reset"%string o),
     after (baseURL ++ js "/api/auth/request-reset-password")
           [("email"%string, email)]) /\
  Client.crun (Client.verifyResetToken baseURL token) n =
    (inl (outcome_result "Token is valid"%string
            (js "Invalid reset token")
            "Failed to verify reset token"%string o),
     after (baseURL ++ js "/api/auth/verify-reset-token")
           [("token"%string, token)]) /\
  Client.crun (Client.confirmPasswordReset baseURL token newPassword) n =
    (inl (outcome_result "Password reset successfully"%string
            (js "Failed to reset password")
            "Failed to reset password"%string o),
     after (baseURL ++ js "/api/auth/confirm-reset-password")
           [("token"%string, token); ("newPassword"%string, newPassword)]).
Proof.
  cbv zeta.
  unfold Client.requestPasswordReset, Client.verifyResetToken,
    Client.confirmPasswordReset, Client.fetch_json.
  cbn [Client.cbind Client.ctry_catch Client.crun].
  destruct (hd Client.offline (Client.outcomes n)) as [m | [|] [m | | d]];
    (split; [reflexivity | split; reflexivity]).
Qed.

Lemma client_verify_runs
      (baseURL token : jsstring) (n : Client.Net) :
  exists v,
    Client.crun (Client.verifyResetToken baseURL token) n =
      (inl v,
       Client.mkNet (tl (Client.outcomes n))
         (Client.sent n ++ [(baseURL ++ js "/api/auth/verify-reset-token",
                             [("token"%string, token)])])) /\
    Client.message v <> "Failed to complete password reset"%string.
Proof.
  unfold Client.verifyResetToken, Client.fetch_json.
  cbn [Client.cbind Client.ctry_catch Client.crun].
  destruct (hd Client.offline (Client.outcomes n)) as [m | [|] [m | | d]];
    eexists; (split; [reflexivity | cbn; discriminate]).
Qed.

Lemma client_confirm_runs
      (baseURL token newPassword : jsstring) (n : Client.Net) :
  exists c n',
    Client.crun (Client.confirmPasswordReset baseURL token newPassword) n =
      (inl c, n') /\
    Client.message c <> "Failed to complete password reset"%string.
Proof.
  unfold Client.confirmPasswordReset, Client.fetch_json.
  cbn [Client.cbind Client.ctry_catch Client.crun].
  destruct (hd Client.offline (Client.outcomes n)) as [m | [|] [m | | d]];
    do 2 eexists; (split; [reflexivity | cbn; discriminate]).
Qed.

(** X23.  [completePasswordReset] verifies the token first and confirms
    only after a successful verification: when the verification fails, its
    result is returned as it is and the confirm request is never sent; when
    it succeeds, the confirm request follows and its result is returned.  The
    method never throws, and its own [catch], with the message
    [Failed to complete password reset], is never reached.  The email it is
    given plays no part. *)
Theorem client_complete_verifies_first
  (baseURL email token newPassword : jsstring) (n : Client.Net) :
  exists v,
    let n1 :=
      Client.mkNet (tl (Client.outcomes n))
        (Client.sent n ++ [(baseURL ++ js "/api/auth/verify-reset-token",
                            [("token"%string, token)])]) in
    Client.crun (Client.verifyResetToken baseURL token) n = (inl v, n1) /\
    Client.crun
      (Client.completePasswordReset baseURL email token newPassword) n =
      (if Client.success v
       then Client.crun
              (Client.confirmPasswordReset baseURL token newPassword) n1
       else (inl v, n1)) /\
    exists r n',
      Client.crun
        (Client.completePasswordReset baseURL email token newPassword) n =
        (inl r, n') /\
      Client.message r <> "Failed to complete password reset"%string.
Proof.
  destruct (client_verify_runs baseURL token n) as (v & Hv & Hmv).
  exists v. cbv zeta. split; [exact Hv |].
  assert (E : Client.crun
                (Client.completePasswordReset baseURL email token newPassword)
                n =
              if Client.success v
              then Client.crun
                     (Client.confirmPasswordReset baseURL token newPassword)
                     (Client.mkNet (tl (Client.outcomes n))
                        (Client.sent n ++
                         [(baseURL ++ js "/api/auth/verify-reset-token",
                           [("token"%string, token)])]))
              else (inl v,
                    Client.mkNet (tl (Client.outcomes n))
                      (Client.sent n ++
                       [(baseURL ++ js "/api/auth/verify-reset-token",
                         [("token"%string, token)])]))).
  { unfold Client.completePasswordReset.
    rewrite crun_ctry_catch, crun_cbind, Hv.
    destruct (Client.success v); cbn [negb].
    - rewrite crun_cbind.
      destruct (client_confirm_runs baseURL token newPassword
                  (Client.mkNet (tl (Client.outcomes n))
                     (Client.sent n ++
                      [(baseURL ++ js "/api/auth/verify-reset-token",
                        [("token"%string, token)])])))
        as (c & n' & Hc & _).
      rewrite Hc. reflexivity.
    - reflexivity. }
  split; [exact E |].
  rewrite E. destruct (Client.success v).
  - destruct (client_confirm_runs baseURL token newPassword
                (Client.mkNet (tl (Client.outcomes n))
                   (Client.sent n ++
                    [(baseURL ++ js "/api/auth/verify-reset-token",
                      [("token"%string, token)])])))
      as (c & n' & Hc & Hmc).
    exists c, n'. split; [exact Hc | exact Hmc].
  - do 2 eexists. split; [reflexivity | exact Hmv].
Qed.

(** X24.  The error texts of the servers do not reach the user of the
    client.  Every failure response of the handlers of this repository
    carries its text in the [error] property of the body, while the client
    reads the [message] property: against any response with an error body
    and a status outside 200-299, each method reports its own default text. *)
Theorem client_drops_server_error_text
  (baseURL email token newPassword : jsstring)
  (code : Z) (text : string) (rest : list Client.FetchOutcome)
  (log : list (jsstring * Client.Payload)) :
  Client.ok_status code = false ->
  let n :=
    Client.mkNet
      (Client.outcome_of_response (mkResponse code (JError text)) :: rest)
      log in
  (exists n',
      Client.crun (Client.requestPasswordReset baseURL email) n =
        (inl (Client.mkResult false None
                (Some (js "Failed to request password reset"))
                "Failed to request password reset"), n')) /\
  (exists n',
      Client.crun (Client.verifyResetToken baseURL token) n =
        (inl (Client.mkResult false None
                (Some (js "Invalid reset token"))
                "Failed to verify reset token"), n')) /\
  (exists n',
      Client.crun (Client.confirmPasswordReset baseURL token newPassword) n =
        (inl (Client.mkResult false None
                (Some (js "Failed to reset password"))
                "Failed to reset password"), n')).
Proof.
  intros Hok n. subst n.
  unfold Client.requestPasswordReset, Client.verifyResetToken,
    Client.confirmPasswordReset, Client.fetch_json,
    Client.outcome_of_response.
  cbn [Client.cbind Client.ctry_catch Client.crun Client.outcomes hd status
       json Client.parsed_of_json].
  rewrite Hok. cbn [negb].
  unfold Client.message_or. cbn [Client.data_message].
  cbn [Client.ctry_catch Client.crun].
  repeat split; eexists; reflexivity.
Qed.

Lemma client_drops_server_error_witness :
  exists n',
    Client.crun
      (Client.confirmPasswordReset (js "http://localhost:3001")
         (js "token") new_password)
      (Client.mkNet
         [Client.outcome_of_response
            (mkResponse 404 (JError "Endpoint not found"))] []) =
      (inl (Client.mkResult false None
              (Some (js "Failed to reset password"))
              "Failed to reset password"), n').
Proof.
  apply (proj2 (proj2 (client_drops_server_error_text
           (js "http://localhost:3001") test_email (js "token") new_password
           404 "Endpoint not found" [] [] eq_refl))).
Defined.

(* ================================================================== *)
(** ** The two resets with the old password, end to end *)

(** X25.  After a successful reset through [src/unnamed/part_001] of a
    record of the draft table, the lookup of that email finds the digest of
    the new password, whatever the stored value was before. *)
Theorem serverless_reset_stores_digest
  (req : Request) (w w' : World) (r : Response) (e np s : jsstring) :
  method req = "POST"%string ->
  body_email (body req) = Some e ->
  body_newPassword (body req) = Some np ->
  stored e (draft (db w)) = Some s ->
  run (Reset.handler true req) w = (Some r, w') ->
  status r = 200 ->
  stored e (draft (db w')) = Some (hashPassword np) /\
  verify_spec (hashPassword np) np = AcceptedHashed.
Proof.
  intros Hm He Hn Hs Hrun Hst. split.
  - exact (Reset_success_stores_digest req w w' r e np s Hm He Hn Hs Hrun Hst).
  - unfold verify_spec. cbv zeta. now rewrite streq_refl.
Qed.

Lemma serverless_reset_stores_digest_witness :
  stored test_email
         (draft (mkHubDB [set_password (hashPassword new_password) row_plain]
                         [row_plain])) =
    Some (hashPassword new_password) /\
  verify_spec (hashPassword new_password) new_password = AcceptedHashed.
Proof.
  apply (serverless_reset_stores_digest
           (post (reset_body test_email old_password new_password))
           (world_of row_plain [])
           (mkWorld
              (mkHubDB [set_password (hashPassword new_password) row_plain]
                       [row_plain])
              []
              [(AxiosGet true (Some test_email), true);
               (AxiosPatch true (js "1") (hashPassword new_password), true)])
           (mkResponse 200
              (JUpdated "Password updated successfully" (js "1")))
           test_email new_password old_password).
  - reflexivity.
  - reflexivity.
  - reflexivity.
  - vm_compute. reflexivity.
  - vm_compute. reflexivity.
  - reflexivity.
Defined.

(** X26.  In [src/api/index.ts] a reset whose old password matches the
    stored value neither as a digest nor as a plaintext is answered 400
    [Invalid old password] after the one GET: nothing is written and the
    table is as it was. *)
Theorem api_wrong_old_password_leaves_table
  (w : World) (b : Body) (e p np : jsstring) (row : Row) (rest : list Row) :
  body_email b = Some e ->
  body_oldPassword b = Some p ->
  body_newPassword b = Some np ->
  e <> [] -> p <> [] -> 8 <= length_js np ->
  next_fault w = false ->
  query (Some e) (published (db w)) = row :: rest ->
  values_password row <> hashPassword p ->
  values_password row <> p ->
  exists w',
    run (Api.reset_password b) w =
      (Some (mkResponse 400 (JError "Invalid old password")), w') /\
    db w' = db w /\
    calls w' = calls w ++ [(AxiosGet false None, true)].
Proof.
  intros He Hp Hn Ne Np Hlen Hf Hq Hd Hplain.
  exists (record (AxiosGet false None) true (db w) w).
  split; [| split; reflexivity].
  now apply (Api_wrong_old_password_400 w b e p np row rest).
Qed.

Lemma api_wrong_old_password_witness :
  exists w',
    run (Api.reset_password (reset_body test_email (js "wrong") new_password))
        (world_of row_hashed []) =
      (Some (mkResponse 400 (JError "Invalid old password")), w') /\
    db w' = db (world_of row_hashed []) /\
    calls w' = calls (world_of row_hashed []) ++ [(AxiosGet false None, true)].
Proof.
  apply (api_wrong_old_password_leaves_table
           (world_of row_hashed [])
           (reset_body test_email (js "wrong") new_password)
           test_email (js "wrong") new_password row_hashed []).
  - reflexivity.
  - reflexivity.
  - reflexivity.
  - vm_compute. discriminate.
  - vm_compute. discriminate.
  - vm_compute. discriminate.
  - reflexivity.
  - vm_compute. reflexivity.
  - vm_compute. discriminate.
  - vm_compute. discriminate.
Defined.

(* ================================================================== *)
(** ** src/server.js on arbitrary JSON bodies *)

(** On a body of strings the handlers over JSON values are the handlers
    over strings. *)
Lemma js_lt_inject (n k : Z) :
  js_lt (Some (inject_Z n)) k = (n <? k).
Proof.
  unfold js_lt, Qlt_bool, Qle_bool. cbn [inject_Z Qnum Qden].
  rewrite !Z.mul_1_r. symmetry. apply Z.ltb_antisym.
Qed.

Lemma ServerJson_on_strings (b : Body) :
  ServerJson.reset_password (json_body b) = Server.reset_password b /\
  ServerJson.change_password (json_body b) = Server.change_password b.
Proof.
  unfold ServerJson.reset_password, ServerJson.change_password,
    Server.reset_password, Server.change_password, json_body.
  cbv zeta. cbn [json_email json_oldPassword json_currentPassword
                 json_newPassword].
  destruct (body_email b) as [[|c1 e]|];
    destruct (body_oldPassword b) as [[|c2 o]|];
    destruct (body_currentPassword b) as [[|c4 cp]|];
    destruct (body_newPassword b) as [[|c3 np]|];
    cbn [body_of_field js_falsy falsy orb get_length length_value bind
         try_catch str js_is field_is ServerJson.hashPassword];
    rewrite ?js_lt_inject;
    split;
    repeat match goal with
           | |- context [if ?c then _ else _] => destruct c
           end;
    reflexivity.
Qed.









(* ================================================================== *)
(** ** src/api/auth/reset-password.js: what is written *)






